(** * request_recorder: capture / replay codec

    A shallow embedding of the Go sources [header.go] and [server.go]
    (server side: [httpHandler], [maxFileNum], [readMultiPart], [readJson],
    [saveBody], [saveRecord]; client side: [clientCmd], [parseRecordBody])
    together with the properties the specification states about them.

    Conventions.
    - Go [string] values that name things (header keys, content types, file
      names) are [string]; byte payloads ([[]byte], stream contents) are
      [list byte].
    - A Go map is a [gmap]; a nil map is [None] where the code tells nil
      and empty apart.
    - A Go function returning [(T, error)] returns an [outcome T]; the
      outcome also records a runtime panic and a process exit
      ([log.Fatalf]).
    - Functions that touch the file system thread a [fs] value.
    - What the code takes from Go's library without the repository holding
      it (the tables of [unicode] and [mime], [encoding/json],
      [mime/multipart]) is a class the definitions and theorems are
      generic in; instances to run examples on come after the code. *)

From Stdlib Require Import ZArith Strings.Ascii Strings.String Lists.List Strings.Byte.
From stdpp Require Import base option list gmap strings fin_maps sorting.

Local Open Scope string_scope.
Local Open Scope Z_scope.

(* ===================================================================== *)
(** ** Errors and outcomes *)
(* ===================================================================== *)

(** The [error] values the code compares against ([io.EOF],
    [io.ErrUnexpectedEOF]) and every other error, kept by message. *)
Inductive error :=
  | EOF
  | ErrUnexpectedEOF
  | ErrOther (msg : string).

Inductive outcome (A : Type) :=
  | Ok (a : A)
  | Err (e : error)
  | Panic (msg : string)
  | Exit (code : Z).
Arguments Ok {A} a.
Arguments Err {A} e.
Arguments Panic {A} msg.
Arguments Exit {A} code.

(* ===================================================================== *)
(** ** The pieces of Go's [strings], [strconv], [fmt] and [path/filepath]
       that the code calls *)
(* ===================================================================== *)

Definition is_digit (c : ascii) : bool :=
  let n := N_of_ascii c in ((48 <=? n) && (n <=? 57))%N.

Definition digit_val (c : ascii) : Z := Z.of_N (N_of_ascii c) - 48.

(** [strings.Contains] *)
Fixpoint strings_Contains (s substr : string) : bool :=
  String.prefix substr s ||
  match s with
  | EmptyString => false
  | String _ s' => strings_Contains s' substr
  end.

(** [strings.HasSuffix] *)
Definition strings_HasSuffix (s suffix : string) : bool :=
  String.prefix (String.rev suffix) (String.rev s).

(** [strings.TrimSuffix] *)
Definition strings_TrimSuffix (s suffix : string) : string :=
  if strings_HasSuffix s suffix
  then String.substring 0 (String.length s - String.length suffix) s
  else s.

Fixpoint string_drop (n : nat) (s : string) : string :=
  match n, s with
  | O, _ => s
  | S n', String _ s' => string_drop n' s'
  | S _, EmptyString => EmptyString
  end.

Fixpoint strings_ReplaceAll_go (fuel : nat) (s old new : string) : string :=
  match fuel with
  | O => s
  | S fuel' =>
      match s with
      | EmptyString => EmptyString
      | String a s' =>
          if String.prefix old s
          then new +:+ strings_ReplaceAll_go fuel' (string_drop (String.length old) s) old new
          else String a (strings_ReplaceAll_go fuel' s' old new)
      end
  end.

(** [strings.ReplaceAll] for a non-empty [old], which is how the code
    calls it: matches are replaced from the left and do not overlap. *)
Definition strings_ReplaceAll (s old new : string) : string :=
  strings_ReplaceAll_go (S (String.length s)) s old new.

(** [strings.IndexFunc(name, func(r rune) bool { return r < '0' || r > '9' })].
    The digits are one-byte runes, so the first rune that is not a digit
    starts at the first byte that is not a digit: the byte index the call
    returns is found bytewise. *)
Fixpoint index_non_digit (s : string) (i : Z) : Z :=
  match s with
  | EmptyString => -1
  | String c s' => if is_digit c then index_non_digit s' (i + 1) else i
  end.

Fixpoint decimal_go (fuel : nat) (n : Z) (acc : string) : string :=
  match fuel with
  | O => acc
  | S fuel' =>
      let acc' := String (ascii_of_N (Z.to_N (48 + n mod 10))) acc in
      if n <? 10 then acc' else decimal_go fuel' (n / 10) acc'
  end.

Definition decimal (n : Z) : string :=
  decimal_go (S (Z.to_nat (Z.log2 n))) n EmptyString.

(** [%d] *)
Definition fmt_d (n : Z) : string :=
  if n <? 0 then "-" +:+ decimal (- n) else decimal n.

Fixpoint zeros (k : nat) : string :=
  match k with
  | O => EmptyString
  | S k' => String "0" (zeros k')
  end.

(** [%04d]: the sign counts in the width of four. *)
Definition fmt_04d (n : Z) : string :=
  if n <? 0
  then let d := decimal (- n) in "-" +:+ zeros (3 - String.length d) +:+ d
  else let d := decimal n in zeros (4 - String.length d) +:+ d.

Fixpoint atoi_digits (s : string) (acc : Z) : option Z :=
  match s with
  | EmptyString => Some acc
  | String c s' =>
      if is_digit c then atoi_digits s' (10 * acc + digit_val c) else None
  end.

(** [strconv.Atoi] with a 64-bit [int]: an optional sign, at least one
    digit, and a range error outside [-2^63, 2^63). *)
Definition strconv_Atoi (s : string) : option Z :=
  let '(neg, body) :=
    match s with
    | String "-" s' => (true, s')
    | String "+" s' => (false, s')
    | _ => (false, s)
    end in
  match body with
  | EmptyString => None
  | _ =>
      match atoi_digits body 0 with
      | None => None
      | Some n =>
          let v := if neg then - n else n in
          if (- 2 ^ 63 <=? v) && (v <? 2 ^ 63) then Some v else None
      end
  end.

Definition slash : ascii := "/"%char.
Definition dot : ascii := "."%char.

Fixpoint ext_go (rev_path acc : list ascii) : list ascii :=
  match rev_path with
  | [] => []
  | c :: r =>
      if decide (c = slash) then []
      else if decide (c = dot) then c :: acc
      else ext_go r (c :: acc)
  end.

(** [filepath.Ext]: the suffix from the last dot of the last element. *)
Definition filepath_Ext (path : string) : string :=
  string_of_list_ascii (ext_go (rev (list_ascii_of_string path)) []).

(** The elements of a path between its slashes. *)
Fixpoint split_slash (path cur : list ascii) : list (list ascii) :=
  match path with
  | [] => [rev cur]
  | c :: r =>
      if decide (c = slash) then rev cur :: split_slash r []
      else split_slash r (c :: cur)
  end.

(** One element of [filepath.Clean]; [out] holds the kept elements, the
    last one first. *)
Definition clean_step (rooted : bool) (out : list (list ascii))
    (elem : list ascii) : list (list ascii) :=
  if decide (elem = []) then out
  else if decide (elem = [dot]) then out
  else if decide (elem = [dot; dot]) then
    match out with
    | top :: out' => if decide (top = [dot; dot]) then elem :: out else out'
    | [] => if rooted then out else [elem]
    end
  else elem :: out.

Fixpoint join_slash (elems : list (list ascii)) : list ascii :=
  match elems with
  | [] => []
  | [e] => e
  | e :: r => e ++ slash :: join_slash r
  end.

(** [filepath.Clean] on a Unix path. *)
Definition filepath_Clean (path : string) : string :=
  let p := list_ascii_of_string path in
  match p with
  | [] => "."
  | c :: _ =>
      let rooted := bool_decide (c = slash) in
      let out := rev (fold_left (clean_step rooted) (split_slash p []) []) in
      let body := join_slash out in
      if rooted then string_of_list_ascii (slash :: body)
      else match body with
           | [] => "."
           | _ => string_of_list_ascii body
           end
  end.

(** [filepath.Join] of two elements. *)
Definition filepath_Join (a b : string) : string :=
  if decide (a = "") then
    if decide (b = "") then "" else filepath_Clean b
  else filepath_Clean (a +:+ "/" +:+ b).

Fixpoint drop_slashes (rev_path : list ascii) : list ascii :=
  match rev_path with
  | c :: r => if decide (c = slash) then drop_slashes r else rev_path
  | [] => []
  end.

Fixpoint take_to_slash (rev_path acc : list ascii) : list ascii :=
  match rev_path with
  | [] => acc
  | c :: r => if decide (c = slash) then acc else take_to_slash r (c :: acc)
  end.

(** [filepath.Base]: the last element of the path. *)
Definition filepath_Base (path : string) : string :=
  match list_ascii_of_string path with
  | [] => "."
  | p =>
      match drop_slashes (rev p) with
      | [] => "/"
      | r => string_of_list_ascii (take_to_slash r [])
      end
  end.

Fixpoint drop_to_slash (rev_path : list ascii) : list ascii :=
  match rev_path with
  | c :: r => if decide (c = slash) then rev_path else drop_to_slash r
  | [] => []
  end.

(** [filepath.Dir]: all but the last element of the path, cleaned. *)
Definition filepath_Dir (path : string) : string :=
  filepath_Clean
    (string_of_list_ascii (rev (drop_to_slash (rev (list_ascii_of_string path))))).

(* ===================================================================== *)
(** ** header.go *)
(* ===================================================================== *)

(** [type Header map[string]interface{}]: the dynamic value is a string, a
    string slice, or anything else (what a JSON decoder may have put
    there). *)
Inductive hval :=
  | VString (s : string)
  | VStrings (l : list string)
  | VOther.

(** [http.Header] and [textproto.MIMEHeader]. *)
Abbreviation WireHeader := (gmap string (list string)).

(** A [Header] variable may hold the nil map. *)
Abbreviation Header := (option (gmap string hval)).

Definition ToHttpHeader_step (k : string) (v : hval) (header : WireHeader)
  : WireHeader :=
  match v with
  | VString s => <[k := [s]]> header
  | VStrings l => <[k := l]> header
  | VOther => header
  end.

(** [func (h Header) ToHttpHeader() http.Header] *)
Definition ToHttpHeader (h : Header) : WireHeader :=
  map_fold ToHttpHeader_step ∅ (default ∅ h).

(** [func (h Header) ToMIMEHeader() textproto.MIMEHeader]; [header.Set]
    with a key that is stored as it is spelled. *)
Definition ToMIMEHeader (canon : string → string) (h : Header) : WireHeader :=
  map_fold (λ k v header,
              match v with
              | VString s => <[canon k := [s]]> header
              | VStrings l => <[k := l]> header
              | VOther => header
              end) ∅ (default ∅ h).

Definition FromHttpHeader_step (k : string) (v : list string)
    (h : gmap string hval) : gmap string hval :=
  if decide (length v = 0%nat) then h
  else if decide (length v = 1%nat) then <[k := VString (default "" (head v))]> h
  else <[k := VStrings v]> h.

(** [func (h *Header) FromHttpHeader(header http.Header)] *)
Definition FromHttpHeader (h : Header) (header : WireHeader) : Header :=
  if decide (size header = 0%nat) then h
  else Some (map_fold FromHttpHeader_step (default ∅ h) header).

(** [func (h *Header) FromMIMEHeader(header textproto.MIMEHeader)] *)
Definition FromMIMEHeader (h : Header) (header : WireHeader) : Header :=
  FromHttpHeader h header.

(** [func (h *Header) Get(key string) string] *)
Definition Header_Get (h : Header) (key : string) : string :=
  match h with
  | None => ""
  | Some m =>
      match m !! key with
      | None => ""
      | Some (VString s) => s
      | Some (VStrings s) => default "" (head s)
      | Some VOther => ""
      end
  end.

(** [http.Header.Get] / [textproto.MIMEHeader.Get] at a key that is already
    in canonical form, which [Content-Type] and [Content-Encoding] are. *)
Definition wire_Get (header : WireHeader) (key : string) : string :=
  match header !! key with
  | Some (v :: _) => v
  | _ => ""
  end.

(** [http.Header.Set] at a canonical key. *)
Definition wire_Set (header : WireHeader) (key value : string) : WireHeader :=
  <[key := [value]]> header.

(** What one key of a wire header folds to, and what one folded value
    unfolds to; used to state the lookups of the two conversions. *)
Definition fold_value (v : list string) : option hval :=
  match v with
  | [] => None
  | [x] => Some (VString x)
  | _ => Some (VStrings v)
  end.

Definition unfold_value (v : hval) : option (list string) :=
  match v with
  | VString s => Some [s]
  | VStrings l => Some l
  | VOther => None
  end.

(* ===================================================================== *)
(** ** Streams and the file system *)
(* ===================================================================== *)

(** The numeric value of a byte. *)
Definition code (b : byte) : Z := Z.of_N (Byte.to_N b).

(** An [io.Reader]: the bytes it still holds and the way it ends, [EOF] for
    a clean end and any other error for a read that fails after the last
    byte. *)
Record reader := { rd_data : list byte; rd_end : error }.

(** [io.ReadFull(r, buffer)] with [len(buffer) = n]: the bytes read, the
    error, and the reader afterwards. A full buffer is no error; no byte
    and [EOF] is [EOF]; some bytes and [EOF] is [ErrUnexpectedEOF]. *)
Definition io_ReadFull (r : reader) (n : Z)
  : list byte * option error * reader :=
  if n <=? Z.of_nat (length (rd_data r)) then
    (take (Z.to_nat n) (rd_data r), None,
     {| rd_data := drop (Z.to_nat n) (rd_data r); rd_end := rd_end r |})
  else
    (rd_data r,
     Some match rd_data r, rd_end r with
          | _ :: _, EOF => ErrUnexpectedEOF
          | _, e => e
          end,
     {| rd_data := []; rd_end := rd_end r |}).

(** [io.ReadAll(io.LimitReader(r, n))]: the limited reader reports [EOF]
    once [n] bytes went through it, whatever the stream still holds. *)
Definition io_ReadAll_LimitReader (r : reader) (n : Z) : outcome (list byte) :=
  if n <=? Z.of_nat (length (rd_data r)) then Ok (take (Z.to_nat n) (rd_data r))
  else match rd_end r with
       | EOF => Ok (rd_data r)
       | e => Err e
       end.

(** The file system: the files by path; the paths that cannot be created
    (a missing directory, a permission); the bytes that can still be
    written. *)
Record fs := {
  files : gmap string (list byte);
  denied : gset string;
  free : Z
}.

(** Code that uses the file system. *)
Definition M (A : Type) : Type := fs → outcome A * fs.

Definition ret {A} (a : A) : M A := λ s, (Ok a, s).

Definition fail {A} (e : error) : M A := λ s, (Err e, s).

Definition bind {A B} (m : M A) (k : A → M B) : M B :=
  λ s, match m s with
       | (Ok a, s') => k a s'
       | (Err e, s') => (Err e, s')
       | (Panic msg, s') => (Panic msg, s')
       | (Exit c, s') => (Exit c, s')
       end.

Notation "x <~ m ; k" := (bind m (λ x, k))
  (at level 100, m at next level, right associativity).

(** [os.Create(name)]: the file is created or truncated. *)
Definition os_Create (name : string) : M string :=
  λ s, if decide (name ∈ denied s)
       then (Err (ErrOther ("open " +:+ name)), s)
       else (Ok name,
             {| files := <[name := []]> (files s); denied := denied s; free := free s |}).

(** [f.Write(b)]: what fits is written, and a short write is an error. *)
Definition file_Write (name : string) (b : list byte) : M unit :=
  λ s, let old := default [] (files s !! name) in
       if Z.of_nat (length b) <=? free s then
         (Ok (),
          {| files := <[name := (old ++ b)%list]> (files s); denied := denied s;
             free := free s - Z.of_nat (length b) |})
       else
         (Err (ErrOther "no space left on device"),
          {| files := <[name := (old ++ take (Z.to_nat (free s)) b)%list]> (files s);
             denied := denied s; free := 0 |}).

(** [io.Copy(f, r)]: the rest of the stream goes to the file; a failed
    write or the error the stream ends with is returned. *)
Definition io_Copy (name : string) (r : reader) : M unit :=
  _ <~ file_Write name (rd_data r);
  match rd_end r with
  | EOF => ret ()
  | e => fail e
  end.

(* ===================================================================== *)
(** ** Runes *)
(* ===================================================================== *)

Definition RuneError : Z := 0xFFFD.

Definition continuation (b : Z) : bool := (0x80 <=? b) && (b <=? 0xBF).

(** The first rune of a byte sequence and its width, as [for range] over a
    string decodes it: a byte that does not start a well-formed encoding is
    [RuneError] of width 1. *)
Definition decode_rune (l : list Z) : Z * nat :=
  match l with
  | [] => (RuneError, 1%nat)
  | b0 :: r =>
      if b0 <? 0x80 then (b0, 1%nat)
      else if (0xC2 <=? b0) && (b0 <=? 0xDF) then
        match r with
        | b1 :: _ =>
            if continuation b1
            then (Z.lor (Z.shiftl (Z.land b0 0x1F) 6) (Z.land b1 0x3F), 2%nat)
            else (RuneError, 1%nat)
        | _ => (RuneError, 1%nat)
        end
      else if (0xE0 <=? b0) && (b0 <=? 0xEF) then
        match r with
        | b1 :: b2 :: _ =>
            let lo := if b0 =? 0xE0 then 0xA0 else 0x80 in
            let hi := if b0 =? 0xED then 0x9F else 0xBF in
            if (lo <=? b1) && (b1 <=? hi) && continuation b2
            then (Z.lor (Z.shiftl (Z.land b0 0x0F) 12)
                    (Z.lor (Z.shiftl (Z.land b1 0x3F) 6) (Z.land b2 0x3F)), 3%nat)
            else (RuneError, 1%nat)
        | _ => (RuneError, 1%nat)
        end
      else if (0xF0 <=? b0) && (b0 <=? 0xF4) then
        match r with
        | b1 :: b2 :: b3 :: _ =>
            let lo := if b0 =? 0xF0 then 0x90 else 0x80 in
            let hi := if b0 =? 0xF4 then 0x8F else 0xBF in
            if (lo <=? b1) && (b1 <=? hi) && continuation b2 && continuation b3
            then (Z.lor (Z.shiftl (Z.land b0 0x07) 18)
                    (Z.lor (Z.shiftl (Z.land b1 0x3F) 12)
                       (Z.lor (Z.shiftl (Z.land b2 0x3F) 6) (Z.land b3 0x3F))), 4%nat)
            else (RuneError, 1%nat)
        | _ => (RuneError, 1%nat)
        end
      else (RuneError, 1%nat)
  end.

Fixpoint runes_go (fuel : nat) (l : list Z) : list Z :=
  match fuel, l with
  | O, _ => []
  | _, [] => []
  | S fuel', _ :: _ =>
      let '(r, w) := decode_rune l in r :: runes_go fuel' (drop w l)
  end.

(** The runes [for _, r := range string(buffer)] visits. *)
Definition runes (buffer : list byte) : list Z :=
  runes_go (length buffer) (code <$> buffer).

(** The predicates of package [unicode] the code calls; their tables are
    not part of the repository. *)
Class Unicode := {
  unicode_IsLetter : Z → bool;
  unicode_IsDigit : Z → bool;
  unicode_IsSpace : Z → bool
}.

(** Package [mime]: the extensions registered for a media type, none when
    the type does not parse, as the empty one does not; the type of an
    extension; and the [boundary] parameter [mime.ParseMediaType] finds. *)
Class Mime := {
  mime_ExtensionsByType : string → list string;
  mime_TypeByExtension : string → string;
  mime_boundary : string → string;
  mime_ExtensionsByType_empty : mime_ExtensionsByType "" = []
}.

(** Package [encoding/json]: [json.Valid], and [json.Compact] with [None]
    for its error. *)
Class Json := {
  json_Valid : list byte → bool;
  json_Compact : list byte → option (list byte)
}.

(* ===================================================================== *)
(** ** server.go: classifying a body *)
(* ===================================================================== *)

(** [64*1024], the size of the buffer [saveBody] reads into. *)
Definition peek_window : Z := 64 * 1024.

(** [1<<20], the limit of [readJson]. *)
Definition json_limit : Z := Z.shiftl 1 20.

(** [func isContentMultiPart(contentType string) bool] *)
Definition isContentMultiPart (contentType : string) : bool :=
  strings_Contains contentType "multipart/form-data".

(** [func isContentJson(contentType string) bool] *)
Definition isContentJson (contentType : string) : bool :=
  strings_Contains contentType "/json".

Section classify.
Context `{Unicode, Mime, Json}.

(** [unicode.IsLetter(r) || unicode.IsDigit(r) || unicode.IsSpace(r)] *)
Definition printable (r : Z) : bool :=
  unicode_IsLetter r || unicode_IsDigit r || unicode_IsSpace r.

(** [func readJson(r io.Reader) (json.RawMessage, error)] *)
Definition readJson (r : reader) : outcome (list byte) :=
  match io_ReadAll_LimitReader r json_limit with
  | Ok data =>
      if negb (json_Valid data) then Err (ErrOther "invalid json")
      else Ok data
  | Err e => Err e
  | Panic msg => Panic msg
  | Exit c => Exit c
  end.

(** The part of [saveBody] after the label [saveFile]. The test
    [len(ext) >= 0] is the one of the code; [ext[0]] of an empty slice
    is a runtime panic. *)
Definition saveBody_saveFile (buffer : list byte) (r : reader)
    (contentType recommendFilename : string) : M (string * string) :=
  let ext := mime_ExtensionsByType contentType in
  name <~ (if 0 <=? Z.of_nat (length ext) then
             let trimmed :=
               strings_TrimSuffix recommendFilename (filepath_Ext recommendFilename) in
             match ext !! 0%nat with
             | Some ext0 => ret (trimmed +:+ ext0)
             | None => λ s, (Panic "index out of range [0] with length 0", s)
             end
           else ret recommendFilename);
  f <~ os_Create name;
  _ <~ (if 0 <? Z.of_nat (length buffer) then file_Write f buffer else ret ());
  _ <~ io_Copy f r;
  ret ("", name).

(** [func saveBody(r io.Reader, contentType string, recommendFilename
    string) (string, string, error)]; the two strings are the inline body
    and the name of the file. *)
Definition saveBody (r : reader) (contentType recommendFilename : string)
  : M (string * string) :=
  let '(buffer, err, r') := io_ReadFull r peek_window in
  match err with
  | Some EOF => ret ("", "")
  | Some ErrUnexpectedEOF =>
      (* buffer = buffer[:n]; hasMore = false *)
      if forallb printable (runes buffer)
      then ret (string_of_list_byte buffer, "")
      else saveBody_saveFile buffer r' contentType recommendFilename
  | Some e => fail e
  | None =>
      (* hasMore stays true *)
      saveBody_saveFile buffer r' contentType recommendFilename
  end.

(** The streams [saveBody] sends to [saveFile]: the window is filled, or
    the stream ends earlier and holds a rune that is not printable. *)
Definition takes_spool_path (r : reader) : Prop :=
  peek_window ≤ Z.of_nat (length (rd_data r))
  ∨ (Z.of_nat (length (rd_data r)) < peek_window
     ∧ rd_data r ≠ []
     ∧ (rd_end r = EOF ∨ rd_end r = ErrUnexpectedEOF)
     ∧ forallb printable (runes (rd_data r)) = false).

(** The name [saveFile] gives the file when the type has an extension. *)
Definition spool_name (recommendFilename ext0 : string) : string :=
  strings_TrimSuffix recommendFilename (filepath_Ext recommendFilename) +:+ ext0.

End classify.

(* ===================================================================== *)
(** ** The record *)
(* ===================================================================== *)

(** [type MultiPart struct]; a nil [json.RawMessage] is [None]. *)
Record MultiPart := {
  mp_Header : Header;
  Content : string;
  ContentFile : string;
  ContentJson : option (list byte)
}.

(** [type RequestResponse struct]; a nil [BodyMultiPart] is [None]. *)
Record RequestResponse := {
  rr_Header : Header;
  OriginalContentEncoding : string;
  Body : string;
  BodyFile : string;
  BodyJson : option (list byte);
  BodyMultiPart : option (list MultiPart)
}.

(** [type Record struct]; a nil [*RequestResponse] is [None]. *)
Record TransactionRecord := {
  Method : string;
  URL : string;
  Time : string;
  Protocol : string;
  Request : option RequestResponse;
  Response : option RequestResponse
}.

(** What [json.NewEncoder(f)], set up as [saveRecord] does, writes for a
    record. *)
Class JsonEncoder := {
  json_Encode : TransactionRecord → list byte
}.

(* ===================================================================== *)
(** ** server.go: the sequence allocator *)
(* ===================================================================== *)

(** [os.DirEntry], as far as [maxFileNum] looks at it. *)
Record DirEntry := { Name : string; IsDir : bool }.

(** An open directory ([*os.File]): the entries not returned yet, the number
    of [ReadDir] calls made so far, and for every call the error it fails
    with, if it fails. *)
Record dirfile := {
  pending : list DirEntry;
  calls : nat;
  fault : nat → option error
}.

(** [f.ReadDir(n)] for [n > 0]: at most [n] entries and no error, or no
    entry and the reason, [io.EOF] at the end of the directory. *)
Definition ReadDir (f : dirfile) (n : nat)
  : list DirEntry * option error * dirfile :=
  match fault f (calls f) with
  | Some e =>
      ([], Some e, {| pending := pending f; calls := S (calls f); fault := fault f |})
  | None =>
      match pending f with
      | [] =>
          ([], Some EOF, {| pending := []; calls := S (calls f); fault := fault f |})
      | l =>
          (take n l, None,
           {| pending := drop n l; calls := S (calls f); fault := fault f |})
      end
  end.

(** The body of [for _, d := range dirs] in [maxFileNum]. *)
Definition maxFileNum_entry (maxInt : Z) (d : DirEntry) : Z :=
  if IsDir d then maxInt
  else
    let name := Name d in
    let pos := index_non_digit name 0 in
    if pos =? -1 then maxInt
    else
      match strconv_Atoi (String.substring 0 (Z.to_nat pos) name) with
      | None => maxInt
      | Some n => if n >? maxInt then n else maxInt
      end.

(** The [for { ... }] loop of [maxFileNum]. One unit of fuel is one
    iteration; [None] says the fuel ran out before the loop was left. An
    error other than [io.EOF] does not leave the loop. *)
Fixpoint maxFileNum_loop (fuel : nat) (f : dirfile) (maxInt : Z) : option Z :=
  match fuel with
  | O => None
  | S fuel' =>
      let '(dirs, err, f') := ReadDir f 16 in
      match err with
      | Some EOF => Some maxInt
      | _ => maxFileNum_loop fuel' f' (fold_left maxFileNum_entry dirs maxInt)
      end
  end.

(** [func maxFileNum(dir string) (int, error)]; [os_Open] is what opening
    a path gives. *)
Definition maxFileNum (os_Open : string → outcome dirfile) (fuel : nat)
    (dir : string) : option (outcome Z) :=
  match os_Open dir with
  | Ok f => Ok <$> maxFileNum_loop fuel f 1
  | Err e => Some (Err (ErrOther ("failed to open directory " +:+ dir)))
  | Panic m => Some (Panic m)
  | Exit c => Some (Exit c)
  end.

(** Conversion to [int32]: the low 32 bits, read as a signed number. *)
Definition int32 (n : Z) : Z := (n + 2 ^ 31) mod 2 ^ 32 - 2 ^ 31.

(** [atomic.AddInt32(&num, delta)]: the new value, which is also stored. *)
Definition atomic_AddInt32 (num delta : Z) : Z := int32 (num + delta).

(** The start of [httpHandler]: the counter comes from the [num] flag when
    that is positive and from the directory otherwise. *)
Definition httpHandler_seed (os_Open : string → outcome dirfile) (fuel : nat)
    (numFlag : Z) (saveDir : string) : option (outcome Z) :=
  let num := int32 numFlag in
  if num <=? 0 then
    match maxFileNum os_Open fuel saveDir with
    | Some (Ok _num) => Some (Ok (int32 _num))
    | other => other
    end
  else Some (Ok num).

(** A directory that is read without a failure. *)
Definition healthy_dir (entries : list DirEntry) : dirfile :=
  {| pending := entries; calls := 0; fault := λ _, None |}.

(** A directory every read of which fails with the same error. *)
Definition failing_dir (entries : list DirEntry) (e : error) : dirfile :=
  {| pending := entries; calls := 0; fault := λ _, Some e |}.

(** The words of the specification for the seed: the leading decimal-digit
    prefix of a file name, its value, and the largest value over the
    non-directory names, or 1 when no name has a prefix. *)
Fixpoint digit_prefix (name : string) : string :=
  match name with
  | EmptyString => EmptyString
  | String c s' => if is_digit c then String c (digit_prefix s') else EmptyString
  end.

Fixpoint decimal_value (digits : string) (acc : Z) : Z :=
  match digits with
  | EmptyString => acc
  | String c s' => decimal_value s' (10 * acc + digit_val c)
  end.

Definition spec_prefix_value (d : DirEntry) : option Z :=
  if IsDir d then None
  else
    let p := digit_prefix (Name d) in
    if decide (p = "") then None else Some (decimal_value p 0).

Definition spec_seed (entries : list DirEntry) : Z :=
  match omap spec_prefix_value entries with
  | [] => 1
  | v :: vs => fold_left Z.max vs v
  end.

(** What the code counts: the prefix must be followed by one more byte and
    its value must fit an [int]. *)
Definition counted_value (d : DirEntry) : option Z :=
  if IsDir d then None
  else
    let p := digit_prefix (Name d) in
    if decide (p = "") then None
    else if decide (p = Name d) then None
    else if decimal_value p 0 <? 2 ^ 63 then Some (decimal_value p 0)
    else None.

Definition counted_seed (entries : list DirEntry) : Z :=
  fold_left Z.max (omap counted_value entries) 1.

(* ===================================================================== *)
(** ** server.go: multipart bodies and the handler *)
(* ===================================================================== *)

(** A [*multipart.Part]: its header, what [p.FileName()] returns and its
    body. *)
Record Part := {
  part_Header : WireHeader;
  part_FileName : string;
  part_body : reader
}.

(** A [*multipart.Reader]: the parts [NextPart] returns one after the
    other, and the error it returns after the last, [EOF] when the body is
    well framed. *)
Record MultipartReader := {
  mr_parts : list Part;
  mr_end : error
}.

(** An inbound [*http.Request]; [req_MultipartReader] is what
    [r.MultipartReader()] returns. *)
Record HttpRequest := {
  req_Method : string;
  req_Path : string;
  req_URL : string;
  req_Proto : string;
  req_Header : WireHeader;
  req_Body : option reader;
  req_MultipartReader : outcome MultipartReader
}.

(** What a handler wrote to its [http.ResponseWriter]. *)
Record HttpResponse := {
  resp_status : Z;
  resp_body : string
}.

(** The state the handlers share: the counter and the disk. *)
Record server := {
  num : Z;
  disk : fs
}.

Section capture.
Context `{Unicode, Mime, Json, JsonEncoder}.

(** The [for { p, err := mr.NextPart() ... }] loop of [readMultiPart]. *)
Fixpoint readMultiPart_loop (parts : list Part) (final : error)
    (jsonFilename : string) (n : Z) (multiParts : list MultiPart)
  : M (list MultiPart) :=
  match parts with
  | [] =>
      match final with
      | EOF => ret multiParts
      | e => fail e
      end
  | p :: rest =>
      let header := FromMIMEHeader None (part_Header p) in
      let contentType := wire_Get (part_Header p) "Content-Type" in
      if isContentJson contentType then
        match readJson (part_body p) with
        | Ok data =>
            readMultiPart_loop rest final jsonFilename n
              (multiParts ++ [ {| mp_Header := header; Content := "";
                                  ContentFile := ""; ContentJson := Some data |} ])%list
        | Err e => fail (ErrOther "failed to parse json")
        | Panic msg => λ s, (Panic msg, s)
        | Exit c => λ s, (Exit c, s)
        end
      else
        let '(recommendFilename, n') :=
          if negb (bool_decide (part_FileName p = "")) then
            (strings_TrimSuffix jsonFilename ".json" +:+ "-" +:+ part_FileName p, n)
          else
            (strings_TrimSuffix jsonFilename ".json" +:+ "-multipart_" +:+ fmt_d n +:+ ".dat",
             n + 1) in
        saved <~ saveBody (part_body p) contentType recommendFilename;
        readMultiPart_loop rest final jsonFilename n'
          (multiParts ++ [ {| mp_Header := header; Content := saved.1;
                              ContentFile := saved.2; ContentJson := None |} ])%list
  end.

(** [func readMultiPart(r *http.Request, contentType string, jsonFilename
    string) ([]*MultiPart, error)] *)
Definition readMultiPart (r : HttpRequest) (contentType jsonFilename : string)
  : M (list MultiPart) :=
  match req_Body r with
  | None => fail (ErrOther "missing form body")
  | Some _ =>
      match req_MultipartReader r with
      | Ok mr => readMultiPart_loop (mr_parts mr) (mr_end mr) jsonFilename 0 []
      | Err e => fail (ErrOther "failed to create multipart reader")
      | Panic msg => λ s, (Panic msg, s)
      | Exit c => λ s, (Exit c, s)
      end
  end.

(** [func saveRecord(dir, filename string, record *Record) error] *)
Definition saveRecord (dir filename : string) (record : TransactionRecord)
  : M unit :=
  f <~ os_Create (filepath_Join dir filename);
  file_Write f (json_Encode record).

(** [log.Fatalf]: the message is printed and the process exits with
    status 1. Nothing after the call runs. *)
Definition log_Fatalf {A} : M A := λ s, (Exit 1, s).

(** An error of [m] goes to [log.Fatalf]. *)
Definition or_Fatalf {A} (m : M A) : M A :=
  λ s, match m s with
       | (Err _, s') => log_Fatalf s'
       | other => other
       end.

(** The characters of the path that are replaced for the file name. *)
Definition sanitize_path (path : string) : string :=
  let path := strings_ReplaceAll path "/" "_" in
  let path := strings_ReplaceAll path "\" "_" in
  strings_ReplaceAll path "." "_".

(** The name of the record file the handler builds. *)
Definition record_filename (requestNum : Z) (stamp method path : string)
  : string :=
  strings_ReplaceAll
    (fmt_04d requestNum +:+ "_" +:+ stamp +:+ "_" +:+ method +:+ "_" +:+ path +:+ ".json")
    "__" "_".

(** [delete(header, "Content-Encoding")] *)
Definition delete_key (key : string) (h : Header) : Header :=
  delete key <$> h.

(** [record.Request.Body, record.Request.BodyFile = ...] *)
Definition set_body (request : RequestResponse) (body file : string)
  : RequestResponse :=
  {| rr_Header := rr_Header request;
     OriginalContentEncoding := OriginalContentEncoding request;
     Body := body; BodyFile := file;
     BodyJson := BodyJson request; BodyMultiPart := BodyMultiPart request |}.

(** The three ways of a body in the handler, by the content type. The
    result is the request part of the record. *)
Definition capture_body (r : HttpRequest) (body : reader) (filename : string)
    (request : RequestResponse) : M RequestResponse :=
  let contentType := wire_Get (req_Header r) "Content-Type" in
  if isContentMultiPart contentType then
    parts <~ or_Fatalf (readMultiPart r contentType filename);
    ret {| rr_Header := rr_Header request;
           OriginalContentEncoding := OriginalContentEncoding request;
           Body := Body request; BodyFile := BodyFile request;
           BodyJson := BodyJson request; BodyMultiPart := Some parts |}
  else if isContentJson contentType then
    data <~ or_Fatalf (λ s, (readJson body, s));
    ret {| rr_Header := rr_Header request;
           OriginalContentEncoding := OriginalContentEncoding request;
           Body := Body request; BodyFile := BodyFile request;
           BodyJson := Some data; BodyMultiPart := BodyMultiPart request |}
  else
    let recommendFilename := strings_TrimSuffix filename ".json" +:+ "-body.dat" in
    saved <~ or_Fatalf (saveBody body contentType recommendFilename);
    ret (set_body request saved.1 saved.2).

(** The function [httpHandler] returns: one request is handled. [stamp]
    and [rfc3339] are the two renderings of [time.Now()], [responser] is
    the response strategy. The outcome is the response written, or the
    exit of the process, or a panic. *)
Definition handler (saveDir : string) (responser : HttpRequest → HttpResponse)
    (stamp rfc3339 : string) (r : HttpRequest) (srv : server)
  : outcome HttpResponse * server :=
  match req_Path r with
  | EmptyString => (Panic "slice bounds out of range [1:0]", srv)
  | String _ path =>
      let path := sanitize_path path in
      let requestNum := atomic_AddInt32 (num srv) 1 in
      let filename := record_filename requestNum stamp (req_Method r) path in
      let header := delete_key "Content-Encoding" (FromHttpHeader None (req_Header r)) in
      let request :=
        {| rr_Header := header;
           OriginalContentEncoding := wire_Get (req_Header r) "Content-Encoding";
           Body := ""; BodyFile := ""; BodyJson := None; BodyMultiPart := None |} in
      let run : M HttpResponse :=
        request' <~ match req_Body r with
                    | Some body => capture_body r body filename request
                    | None => ret request
                    end;
        _ <~ or_Fatalf
               (saveRecord saveDir filename
                  {| Method := req_Method r; URL := req_URL r; Time := rfc3339;
                     Protocol := req_Proto r; Request := Some request';
                     Response := None |});
        ret (responser r) in
      let '(out, disk') := run (disk srv) in
      (out, {| num := requestNum; disk := disk' |})
  end.


(** The record of a part that is kept inline. *)
Definition inline_part (p : Part) : MultiPart :=
  {| mp_Header := FromMIMEHeader None (part_Header p);
     Content := string_of_list_byte (rd_data (part_body p));
     ContentFile := ""; ContentJson := None |}.





End capture.

(* ===================================================================== *)
(** ** server.go: the replay side *)
(* ===================================================================== *)

(** Package [mime/multipart] on the writing side: the boundary a new
    writer draws, whether [SetBoundary] accepts a boundary, the value
    [FormDataContentType] builds from one, the bytes [CreatePart] writes
    before a part ([first] for the first part), the bytes [Close] writes,
    and [textproto.CanonicalMIMEHeaderKey]. *)
Class MultipartWriter := {
  multipart_fresh_boundary : string;
  multipart_boundary_ok : string → bool;
  multipart_FormDataContentType : string → string;
  multipart_CreatePart : bool → string → WireHeader → list byte;
  multipart_Close : string → list byte;
  textproto_CanonicalMIMEHeaderKey : string → string
}.

(** The [io.ReadCloser] values [parseRecordBody] returns, one constructor
    for each concrete type: an [*os.File], a [*bytes.Buffer], the read end
    of a pipe, a [*strings.Reader]; each with the bytes it yields. *)
Inductive ReadCloser :=
  | RcFile (content : list byte)
  | RcBuffer (content : list byte)
  | RcPipe (content : list byte)
  | RcString (content : string).

Section replay.
Context `{Mime, Json, MultipartWriter}.

(** The [for _, part := range req.BodyMultiPart] loop of the goroutine:
    the bytes it writes to the multipart writer. A part file that cannot
    be opened ends the loop. *)
Fixpoint recompose_parts (baseDir boundary : string) (first : bool)
    (parts : list MultiPart) (s : fs) : list byte :=
  match parts with
  | [] => []
  | part :: rest =>
      let head :=
        multipart_CreatePart first boundary
          (ToMIMEHeader textproto_CanonicalMIMEHeaderKey (mp_Header part)) in
      if negb (bool_decide (ContentFile part = "")) then
        match files s !! filepath_Join baseDir (ContentFile part) with
        | Some content =>
            (head ++ content ++ recompose_parts baseDir boundary false rest s)%list
        | None => head
        end
      else
        match ContentJson part with
        | Some data =>
            (head ++ data ++ recompose_parts baseDir boundary false rest s)%list
        | None =>
            (head ++ list_byte_of_string (Content part)
               ++ recompose_parts baseDir boundary false rest s)%list
        end
  end.

(** [header.Get("Content-Type") == ""] followed by [header.Set]. *)
Definition default_content_type (header : WireHeader) (value : string)
  : WireHeader :=
  if decide (wire_Get header "Content-Type" = "")
  then wire_Set header "Content-Type" value
  else header.

(** [func parseRecordBody(req *RequestResponse, header http.Header,
    baseDir string) (io.ReadCloser, error)]. The header is a map the
    caller shares, so the header after the call is part of the result. *)
Definition parseRecordBody (req : RequestResponse) (header : WireHeader)
    (baseDir : string) (s : fs) : outcome ReadCloser * WireHeader :=
  if negb (bool_decide (BodyFile req = "")) then
    (match files s !! filepath_Join baseDir (BodyFile req) with
     | Some content => Ok (RcFile content)
     | None => Err (ErrOther ("open " +:+ filepath_Join baseDir (BodyFile req)))
     end,
     default_content_type header (mime_TypeByExtension (filepath_Ext (BodyFile req))))
  else
    match BodyJson req with
    | Some data =>
        (match json_Compact data with
         | Some buffer => Ok (RcBuffer buffer)
         | None => Err (ErrOther "failed to parse json")
         end,
         default_content_type header "application/json")
    | None =>
        match BodyMultiPart req with
        | Some parts =>
            let contentType := wire_Get header "Content-Type" in
            let boundary :=
              if negb (bool_decide (contentType = "")) then
                let b := mime_boundary contentType in
                if negb (bool_decide (b = "")) && multipart_boundary_ok b
                then b else multipart_fresh_boundary
              else multipart_fresh_boundary in
            let header' :=
              if negb (bool_decide (contentType = "")) then header
              else wire_Set header "Content-Type"
                     (multipart_FormDataContentType multipart_fresh_boundary) in
            (Ok (RcPipe (recompose_parts baseDir boundary true parts s
                           ++ multipart_Close boundary)%list),
             header')
        | None =>
            (Ok (RcString (Body req)), default_content_type header "text/plain")
        end
    end.

(** The lines of [clientCmd] that build the body of the request from the
    record and the value of the [file] flag. *)
Definition clientCmd_body (file : string) (record : TransactionRecord)
    (s : fs) : outcome ReadCloser * WireHeader :=
  match Request record with
  | None => (Panic "invalid memory address or nil pointer dereference", ∅)
  | Some request =>
      parseRecordBody request (ToHttpHeader (rr_Header request))
        (filepath_Base file) s
  end.

End replay.

(** The path the specification gives for a spooled file on replay: the
    relative name resolved against the directory of the record file. *)
Definition spec_replay_path (file bodyFile : string) : string :=
  filepath_Join (filepath_Dir file) bodyFile.

(** The path the code opens. *)
Definition replay_path (file bodyFile : string) : string :=
  filepath_Join (filepath_Base file) bodyFile.





(* ===================================================================== *)
(** ** header.go: shapes of folded headers *)
(* ===================================================================== *)

(** The values [FromHttpHeader] writes: a string, or a sequence of two
    strings or more. *)
Definition folded_value (v : hval) : Prop :=
  match v with
  | VString _ => True
  | VStrings l => (2 ≤ length l)%nat
  | VOther => False
  end.

(* ===================================================================== *)
(** ** server.go: the numbers the handler hands out *)
(* ===================================================================== *)

(** The record file the handler writes for a request, as a directory
    entry. *)
Definition record_entry (requestNum : Z) (stamp method path : string) : DirEntry :=
  {| Name := record_filename requestNum stamp method path; IsDir := false |}.

(** The counter after [k] requests: [atomic.AddInt32(&num, 1)] each time. *)
Fixpoint allocations (k : nat) (num : Z) : Z :=
  match k with
  | O => num
  | S k' => atomic_AddInt32 (allocations k' num) 1
  end.

(** The character [sanitize_path] puts for a character of the path. *)
Definition sanitized_char (c : ascii) : ascii :=
  if decide (c = "/"%char) then "_"%char
  else if decide (c = "\"%char) then "_"%char
  else if decide (c = "."%char) then "_"%char
  else c.

(** The requests a server has handled, each with its number, the time
    stamp, the method and the sanitized path, and the record files they
    left in the save directory. *)
Definition log_entries (handled : list (Z * string * string * string))
  : list DirEntry :=
  (λ q, record_entry q.1.1.1 q.1.1.2 q.1.2 q.2) <$> handled.

Definition log_numbers (handled : list (Z * string * string * string)) : list Z :=
  (λ q, q.1.1.1) <$> handled.

(* ===================================================================== *)
(** ** server.go: the record of a request *)
(* ===================================================================== *)

(** The request part of the record before the body is looked at: the
    folded header without [Content-Encoding], and the value of that header
    kept beside it. *)
Definition first_record_part (r : HttpRequest) : RequestResponse :=
  {| rr_Header := delete_key "Content-Encoding" (FromHttpHeader None (req_Header r));
     OriginalContentEncoding := wire_Get (req_Header r) "Content-Encoding";
     Body := ""; BodyFile := ""; BodyJson := None; BodyMultiPart := None |}.

(** The record [saveRecord] is given. *)
Definition record_of (r : HttpRequest) (rfc3339 : string) (request : RequestResponse)
  : TransactionRecord :=
  {| Method := req_Method r; URL := req_URL r; Time := rfc3339;
     Protocol := req_Proto r; Request := Some request; Response := None |}.

(* ===================================================================== *)
(** ** server.go: what a decomposed body is recomposed to *)
(* ===================================================================== *)

Section recomposed.
Context `{MultipartWriter}.

(** The multipart stream of parts as they came in: for each part the
    bytes [CreatePart] writes for its header, then its body. *)
Fixpoint part_stream (boundary : string) (first : bool) (parts : list Part)
  : list byte :=
  match parts with
  | [] => []
  | p :: rest =>
      (multipart_CreatePart first boundary (part_Header p)
         ++ rd_data (part_body p) ++ part_stream boundary false rest)%list
  end.

End recomposed.

(* ===================================================================== *)
(** ** server.go: the flags of the server command and the dialled host *)
(* ===================================================================== *)

(** The flags [serverCmd] looks at before it listens. *)
Record server_flags := {
  flag_listen : string;
  flag_https : bool;
  flag_cert : string;
  flag_key : string
}.

(** The start of the [Action] of [serverCmd]: whether the server speaks
    TLS, and the flags after the defaults were set with [c.Set]; the two
    [cli.Exit] calls are errors. *)
Definition serverCmd_flags (c : server_flags) : outcome (bool * server_flags) :=
  let isTls :=
    flag_https c
    || (negb (bool_decide (flag_cert c = "")) && negb (bool_decide (flag_key c = ""))) in
  if isTls then
    let c1 :=
      if bool_decide (flag_listen c = "")
      then {| flag_listen := ":443"; flag_https := flag_https c;
              flag_cert := flag_cert c; flag_key := flag_key c |}
      else c in
    let c2 :=
      if bool_decide (flag_cert c1 = "") && bool_decide (flag_key c1 = "")
      then {| flag_listen := flag_listen c1; flag_https := flag_https c1;
              flag_cert := "cert.pem"; flag_key := "key.pem" |}
      else c1 in
    if bool_decide (flag_cert c2 = "")
    then Err (ErrOther "TLS certificate file is required")
    else if bool_decide (flag_key c2 = "")
    then Err (ErrOther "TLS key file is required")
    else Ok (true, c2)
  else
    Ok (false,
        if bool_decide (flag_listen c = "")
        then {| flag_listen := ":8080"; flag_https := flag_https c;
                flag_cert := flag_cert c; flag_key := flag_key c |}
        else c).

(** [strings.LastIndex(addr, ":")], counted in bytes, -1 when there is no
    colon. *)
Fixpoint last_colon (addr : string) (i : Z) (found : Z) : Z :=
  match addr with
  | EmptyString => found
  | String c addr' => last_colon addr' (i + 1) (if decide (c = ":"%char) then i else found)
  end.

(** The host name [verboseDial] gives the TLS client: [addr[:colonPos]],
    with the length of the address for [colonPos] when there is no
    colon. *)
Definition dial_hostname (addr : string) : string :=
  let colonPos := last_colon addr 0 (-1) in
  let colonPos := if colonPos =? -1 then Z.of_nat (String.length addr) else colonPos in
  String.substring 0 (Z.to_nat colonPos) addr.

(* ===================================================================== *)
(** ** The platform to run examples on *)
(* ===================================================================== *)

(** Package [unicode] on U+0000..U+00FF, the range it decides by a fixed
    table; no rune above is classified here. *)
Definition latin1_IsLetter (r : Z) : bool :=
  ((65 <=? r) && (r <=? 90)) || ((97 <=? r) && (r <=? 122))
  || (r =? 0xAA) || (r =? 0xB5) || (r =? 0xBA)
  || ((0xC0 <=? r) && (r <=? 0xD6)) || ((0xD8 <=? r) && (r <=? 0xF6))
  || ((0xF8 <=? r) && (r <=? 0xFF)).

Definition latin1_IsDigit (r : Z) : bool := (48 <=? r) && (r <=? 57).

Definition latin1_IsSpace (r : Z) : bool :=
  ((9 <=? r) && (r <=? 13)) || (r =? 32) || (r =? 0x85) || (r =? 0xA0).

Definition latin1_Unicode : Unicode :=
  {| unicode_IsLetter := latin1_IsLetter;
     unicode_IsDigit := latin1_IsDigit;
     unicode_IsSpace := latin1_IsSpace |}.

(** Some of the types package [mime] knows without a system table. *)
Definition builtin_ExtensionsByType (contentType : string) : list string :=
  if decide (contentType = "image/png") then [".png"]
  else if decide (contentType = "image/gif") then [".gif"]
  else if decide (contentType = "application/pdf") then [".pdf"]
  else if decide (contentType = "text/html") then [".htm"; ".html"]
  else [].

Definition builtin_TypeByExtension (ext : string) : string :=
  if decide (ext = ".png") then "image/png"
  else if decide (ext = ".gif") then "image/gif"
  else if decide (ext = ".pdf") then "application/pdf"
  else if decide (ext = ".json") then "application/json"
  else if decide (ext = ".html") then "text/html; charset=utf-8"
  else "".

Fixpoint until_semicolon (s : string) : string :=
  match s with
  | EmptyString => EmptyString
  | String c s' => if decide (c = ";"%char) then EmptyString else String c (until_semicolon s')
  end.

(** The unquoted [boundary] parameter of a media type. *)
Fixpoint plain_boundary (contentType : string) : string :=
  if String.prefix "boundary=" contentType
  then until_semicolon (string_drop 9 contentType)
  else match contentType with
       | EmptyString => EmptyString
       | String _ s' => plain_boundary s'
       end.

Definition builtin_Mime : Mime :=
  {| mime_ExtensionsByType := builtin_ExtensionsByType;
     mime_TypeByExtension := builtin_TypeByExtension;
     mime_boundary := plain_boundary;
     mime_ExtensionsByType_empty := eq_refl |}.

(** A validator for the JSON grammar. *)
Definition is_ws (c : Z) : bool := (c =? 32) || (c =? 9) || (c =? 10) || (c =? 13).

Definition is_dec (c : Z) : bool := (48 <=? c) && (c <=? 57).

Definition is_hex (c : Z) : bool :=
  is_dec c || ((65 <=? c) && (c <=? 70)) || ((97 <=? c) && (c <=? 102)).

Definition is_escape (c : Z) : bool :=
  (c =? 34) || (c =? 92) || (c =? 47) || (c =? 98) || (c =? 102)
  || (c =? 110) || (c =? 114) || (c =? 116).

Fixpoint skip_ws (l : list byte) : list byte :=
  match l with
  | b :: r => if is_ws (code b) then skip_ws r else l
  | [] => []
  end.

Fixpoint skip_digits (l : list byte) : list byte :=
  match l with
  | b :: r => if is_dec (code b) then skip_digits r else l
  | [] => []
  end.

(** The rest of the input after a string whose opening quote was read. *)
Fixpoint scan_string (l : list byte) : option (list byte) :=
  match l with
  | [] => None
  | b :: r =>
      let c := code b in
      if c =? 34 then Some r
      else if c =? 92 then
        match r with
        | e :: r' =>
            if is_escape (code e) then scan_string r'
            else if code e =? 117 then
              match r' with
              | h1 :: h2 :: h3 :: h4 :: r'' =>
                  if is_hex (code h1) && is_hex (code h2)
                     && is_hex (code h3) && is_hex (code h4)
                  then scan_string r'' else None
              | _ => None
              end
            else None
        | [] => None
        end
      else if c <? 32 then None
      else scan_string r
  end.

Definition scan_exponent (l : list byte) : option (list byte) :=
  match l with
  | b :: r =>
      if (code b =? 101) || (code b =? 69) then
        let r1 := match r with
                  | sign :: r' =>
                      if (code sign =? 43) || (code sign =? 45) then r' else r
                  | [] => r
                  end in
        match r1 with
        | d :: r' => if is_dec (code d) then Some (skip_digits r') else None
        | [] => None
        end
      else Some l
  | [] => Some []
  end.

Definition scan_fraction (l : list byte) : option (list byte) :=
  match l with
  | b :: r =>
      if code b =? 46 then
        match r with
        | d :: r' => if is_dec (code d) then scan_exponent (skip_digits r') else None
        | [] => None
        end
      else scan_exponent l
  | [] => Some []
  end.

Definition scan_number (l : list byte) : option (list byte) :=
  let l1 := match l with
            | b :: r => if code b =? 45 then r else l
            | [] => l
            end in
  match l1 with
  | b :: r =>
      if code b =? 48 then scan_fraction r
      else if (49 <=? code b) && (code b <=? 57) then scan_fraction (skip_digits r)
      else None
  | [] => None
  end.

Fixpoint strip_prefix (lit l : list byte) : option (list byte) :=
  match lit, l with
  | [], _ => Some l
  | a :: lit', b :: l' => if code a =? code b then strip_prefix lit' l' else None
  | _ :: _, [] => None
  end.

Fixpoint scan_value (fuel : nat) (l : list byte) : option (list byte) :=
  match fuel with
  | O => None
  | S fuel' =>
      match skip_ws l with
      | [] => None
      | b :: r =>
          let c := code b in
          if c =? 123 then
            match skip_ws r with
            | b' :: r' =>
                if code b' =? 125 then Some r' else scan_members fuel' (b' :: r')
            | [] => None
            end
          else if c =? 91 then
            match skip_ws r with
            | b' :: r' =>
                if code b' =? 93 then Some r' else scan_elements fuel' (b' :: r')
            | [] => None
            end
          else if c =? 34 then scan_string r
          else if (c =? 45) || is_dec c then scan_number (b :: r)
          else if c =? 116 then strip_prefix (list_byte_of_string "true") (b :: r)
          else if c =? 102 then strip_prefix (list_byte_of_string "false") (b :: r)
          else if c =? 110 then strip_prefix (list_byte_of_string "null") (b :: r)
          else None
      end
  end
with scan_elements (fuel : nat) (l : list byte) : option (list byte) :=
  match fuel with
  | O => None
  | S fuel' =>
      match scan_value fuel' l with
      | Some rest =>
          match skip_ws rest with
          | b :: r =>
              if code b =? 44 then scan_elements fuel' r
              else if code b =? 93 then Some r
              else None
          | [] => None
          end
      | None => None
      end
  end
with scan_members (fuel : nat) (l : list byte) : option (list byte) :=
  match fuel with
  | O => None
  | S fuel' =>
      match skip_ws l with
      | b :: r =>
          if code b =? 34 then
            match scan_string r with
            | Some rest =>
                match skip_ws rest with
                | colon :: r' =>
                    if code colon =? 58 then
                      match scan_value fuel' r' with
                      | Some rest' =>
                          match skip_ws rest' with
                          | b' :: r'' =>
                              if code b' =? 44 then scan_members fuel' r''
                              else if code b' =? 125 then Some r''
                              else None
                          | [] => None
                          end
                      | None => None
                      end
                    else None
                | [] => None
                end
            | None => None
            end
          else None
      | [] => None
      end
  end.

(** One JSON value with white space around it and nothing else. *)
Definition grammar_Valid (data : list byte) : bool :=
  match scan_value (S (S (length data + length data))) data with
  | Some rest => match skip_ws rest with [] => true | _ => false end
  | None => false
  end.

(** The input without the white space outside of strings. *)
Fixpoint strip_ws (in_string escaped : bool) (l : list byte) : list byte :=
  match l with
  | [] => []
  | b :: r =>
      let c := code b in
      if in_string then
        b :: (if escaped then strip_ws true false r
              else if c =? 92 then strip_ws true true r
              else if c =? 34 then strip_ws false false r
              else strip_ws true false r)
      else if is_ws c then strip_ws false false r
      else b :: strip_ws (c =? 34) false r
  end.

Definition grammar_Compact (data : list byte) : option (list byte) :=
  if grammar_Valid data then Some (strip_ws false false data) else None.

Definition grammar_Json : Json :=
  {| json_Valid := grammar_Valid; json_Compact := grammar_Compact |}.

(** An encoder to run the handler with: the four strings of a record on
    one line. *)
Definition line_Encoder : JsonEncoder :=
  {| json_Encode := λ record,
       list_byte_of_string
         (Method record +:+ " " +:+ URL record +:+ " " +:+ Time record
            +:+ " " +:+ Protocol record) |}.

(** A multipart writer: a fixed boundary for the one a writer draws; the
    boundary lines and header lines as the format has them. *)
Definition crlf : string := String (ascii_of_nat 13) (String (ascii_of_nat 10) EmptyString).

Definition header_lines (header : WireHeader) : string :=
  foldr (λ kv acc, foldr (λ v acc', kv.1 +:+ ": " +:+ v +:+ crlf +:+ acc') acc kv.2)
    EmptyString
    (merge_sort (λ a b, bool_decide (String.le a.1 b.1)) (map_to_list header)).

Definition plain_CreatePart (first : bool) (boundary : string) (header : WireHeader)
  : list byte :=
  list_byte_of_string
    ((if first then "" else crlf) +:+ "--" +:+ boundary +:+ crlf
       +:+ header_lines header +:+ crlf).

Definition plain_Close (boundary : string) : list byte :=
  list_byte_of_string (crlf +:+ "--" +:+ boundary +:+ "--" +:+ crlf).

Definition plain_boundary_ok (boundary : string) : bool :=
  bool_decide (1 ≤ String.length boundary ≤ 70)%nat.

Definition is_token_char (c : ascii) : bool :=
  let n := N_of_ascii c in
  ((48 <=? n) && (n <=? 57) || (65 <=? n) && (n <=? 90) || (97 <=? n) && (n <=? 122)
   || bool_decide (c ∈ list_ascii_of_string "!#$%&'*+-.^_`|~"))%N.

Fixpoint canonical_go (upper : bool) (key : string) : string :=
  match key with
  | EmptyString => EmptyString
  | String c key' =>
      let n := N_of_ascii c in
      let c' :=
        if upper && (97 <=? n)%N && (n <=? 122)%N then ascii_of_N (n - 32)
        else if negb upper && (65 <=? n)%N && (n <=? 90)%N then ascii_of_N (n + 32)
        else c in
      String c' (canonical_go (bool_decide (c = "-"%char)) key')
  end.

(** [textproto.CanonicalMIMEHeaderKey]: a key that is not a token is left
    alone; in a token the first letter and every letter after a hyphen are
    upper case and the others lower case. *)
Definition canonical_key (key : string) : string :=
  if forallb is_token_char (list_ascii_of_string key)
  then canonical_go true key else key.

Definition plain_MultipartWriter : MultipartWriter :=
  {| multipart_fresh_boundary := "7f3a9c0e5b1d48a2967fe3c0d4b5a1e89c2f60d7b3a4e5f1c8097d6b2a3f";
     multipart_boundary_ok := plain_boundary_ok;
     multipart_FormDataContentType := λ b, "multipart/form-data; boundary=" +:+ b;
     multipart_CreatePart := plain_CreatePart;
     multipart_Close := plain_Close;
     textproto_CanonicalMIMEHeaderKey := canonical_key |}.

#[local] Existing Instance plain_MultipartWriter.
#[local] Existing Instance latin1_Unicode.
#[local] Existing Instance builtin_Mime.
#[local] Existing Instance grammar_Json.
#[local] Existing Instance line_Encoder.

(** Inputs for the examples: a disk with room, a request part of a record
    with nothing in it, and requests with a given content type. *)
Definition roomy_disk : fs :=
  {| files := ∅; denied := ∅; free := 2 ^ 30 |}.

Definition blank_request : RequestResponse :=
  {| rr_Header := None; OriginalContentEncoding := ""; Body := ""; BodyFile := "";
     BodyJson := None; BodyMultiPart := None |}.

Definition post (path contentType : string) (body : reader) : HttpRequest :=
  {| req_Method := "POST"; req_Path := path; req_URL := path;
     req_Proto := "HTTP/1.1";
     req_Header := {[ "Content-Type" := [contentType] ]};
     req_Body := Some body;
     req_MultipartReader := Err (ErrOther "request Content-Type isn't multipart/form-data") |}.

Definition stream (data : list byte) : reader :=
  {| rd_data := data; rd_end := EOF |}.

Definition record_with_file (bodyFile : string) : TransactionRecord :=
  {| Method := "POST"; URL := "/a"; Time := "2024-01-01T00:00:00Z";
     Protocol := "HTTP/1.1";
     Request := Some {| rr_Header := None; OriginalContentEncoding := ""; Body := "";
                        BodyFile := bodyFile; BodyJson := None;
                        BodyMultiPart := None |};
     Response := None |}.

Definition disk_with (name : string) (content : list byte) : fs :=
  {| files := {[ name := content ]}; denied := ∅; free := 2 ^ 30 |}.

Definition form_field (name : string) (value : string) : Part :=
  {| part_Header := {[ "Content-Disposition" := ["form-data; name=" +:+ name] ]};
     part_FileName := "";
     part_body := stream (list_byte_of_string value) |}.

Definition form_post (path : string) (parts : list Part) : HttpRequest :=
  {| req_Method := "POST"; req_Path := path; req_URL := path;
     req_Proto := "HTTP/1.1";
     req_Header := {[ "Content-Type" := ["multipart/form-data; boundary=xyz"] ]};
     req_Body := Some (stream []);
     req_MultipartReader := Ok {| mr_parts := parts; mr_end := EOF |} |}.

(** A response strategy and a request for the examples. *)
Definition respond_ok (r : HttpRequest) : HttpResponse :=
  {| resp_status := 200; resp_body := "OK" |}.

Definition notes_request : HttpRequest :=
  post "/notes" "text/html" (stream (list_byte_of_string "hello world")).


Definition locked_disk : fs :=
  {| files := ∅;
     denied := {[ "records/0008_20240101_000000_POST_notes.json" ]};
     free := 2 ^ 30 |}.

(* ===================================================================== *)
(** * Properties *)
(* ===================================================================== *)

Section header_codec.
Implicit Types (h : gmap string hval) (header : WireHeader) (k : string).

Lemma FromHttpHeader_step_lookup k v h k' :
  FromHttpHeader_step k v h !! k' =
    if decide (k = k') then
      match fold_value v with Some x => Some x | None => h !! k' end
    else h !! k'.
Proof.
  unfold FromHttpHeader_step.
  destruct v as [|x [|y v]]; simpl; repeat case_decide; try lia;
    simplify_map_eq; done.
Qed.

Lemma lookup_fold_FromHttpHeader h0 header k :
  map_fold FromHttpHeader_step h0 header !! k =
    match header !! k ≫= fold_value with
    | Some x => Some x
    | None => h0 !! k
    end.
Proof.
  revert k.
  apply (map_fold_weak_ind
           (λ r m, ∀ k, r !! k = match m !! k ≫= fold_value with
                                 | Some x => Some x
                                 | None => h0 !! k
                                 end)).
  - intros k. by rewrite lookup_empty.
  - intros i x m r Hi IH k. rewrite FromHttpHeader_step_lookup.
    case_decide as Hk.
    + subst. rewrite lookup_insert_eq. simpl.
      destruct (fold_value x); [done|].
      rewrite IH, Hi. done.
    + rewrite lookup_insert_ne by done. apply IH.
Qed.

Lemma lookup_ToHttpHeader (h : Header) k :
  ToHttpHeader h !! k = default ∅ h !! k ≫= unfold_value.
Proof.
  unfold ToHttpHeader. generalize (default ∅ h). clear h. intros h. revert k.
  apply (map_fold_weak_ind
           (λ r m, ∀ k, r !! k = m !! k ≫= unfold_value)).
  - intros k. by rewrite !lookup_empty.
  - intros i x m r Hi IH k. unfold ToHttpHeader_step.
    destruct (decide (i = k)) as [->|Hne].
    + rewrite lookup_insert_eq. simpl.
      destruct x; simpl; rewrite ?lookup_insert_eq; try done.
      rewrite IH, Hi. done.
    + rewrite (lookup_insert_ne m) by done.
      destruct x; rewrite ?lookup_insert_ne by done; apply IH.
Qed.

Lemma unfold_fold_value v x :
  fold_value v = Some x → unfold_value x = Some v.
Proof. destruct v as [|a [|b v]]; simpl; intros; simplify_eq; done. Qed.

End header_codec.

Lemma lookup_FromHttpHeader (H : WireHeader) (k : string) :
  default ∅ (FromHttpHeader None H) !! k = H !! k ≫= fold_value.
Proof.
  unfold FromHttpHeader. case_decide as Hsz.
  - apply map_size_empty_inv in Hsz. subst. simpl. by rewrite !lookup_empty.
  - simpl. rewrite lookup_fold_FromHttpHeader, lookup_empty.
    by destruct (H !! k ≫= fold_value).
Qed.

(** C6. Folding a wire header in which every key has at least one value and
    unfolding the result gives the wire header back. Folding stores the one
    value of a single-valued key as a string and the values of a
    multi-valued key as the same sequence; unfolding turns a string into
    the sequence of that one string and leaves a sequence as it is. *)
Theorem header_round_trip (H : WireHeader) :
  (∀ k v, H !! k = Some v → v ≠ []) →
  ToHttpHeader (FromHttpHeader None H) = H
  ∧ (∀ k x, H !! k = Some [x] →
       default ∅ (FromHttpHeader None H) !! k = Some (VString x))
  ∧ (∀ k v, H !! k = Some v → (1 < length v)%nat →
       default ∅ (FromHttpHeader None H) !! k = Some (VStrings v))
  ∧ (∀ (h : gmap string hval) k x, h !! k = Some (VString x) →
       ToHttpHeader (Some h) !! k = Some [x])
  ∧ (∀ (h : gmap string hval) k v, h !! k = Some (VStrings v) →
       ToHttpHeader (Some h) !! k = Some v).
Proof.
  intros Hne. split; [|split; [|split; [|split]]].
  - apply map_eq. intros k.
    rewrite lookup_ToHttpHeader, lookup_FromHttpHeader.
    destruct (H !! k) as [v|] eqn:Hk; simpl; [|done].
    destruct (fold_value v) as [x|] eqn:Hf; simpl.
    + by apply unfold_fold_value.
    + destruct v; [|by destruct v]. by apply Hne in Hk.
  - intros k x Hk. by rewrite lookup_FromHttpHeader, Hk.
  - intros k v Hk Hlen. rewrite lookup_FromHttpHeader, Hk.
    destruct v as [|a [|b v]]; simpl in *; try lia. done.
  - intros h k x Hk. rewrite lookup_ToHttpHeader. simpl. by rewrite Hk.
  - intros h k v Hk. rewrite lookup_ToHttpHeader. simpl. by rewrite Hk.
Qed.

Lemma header_round_trip_witness :
  ToHttpHeader
    (FromHttpHeader None
       (<["Host" := ["example.org"]]> {[ "Accept" := ["text/html"; "text/plain"] ]}))
  = <["Host" := ["example.org"]]> {[ "Accept" := ["text/html"; "text/plain"] ]}.
Proof.
  apply header_round_trip.
  intros k v Hk.
  apply lookup_insert_Some in Hk as [[_ <-]|[_ Hk]]; [discriminate|].
  apply lookup_singleton_Some in Hk as [_ <-]. discriminate.
Defined.

Example filepath_examples :
  filepath_Base "records/0001_a.json" = "0001_a.json" ∧
  filepath_Dir "records/0001_a.json" = "records" ∧
  filepath_Dir "0001_a.json" = "." ∧
  filepath_Dir "/a/b/../c.json" = "/a" ∧
  filepath_Base "/a/b/" = "b" ∧
  filepath_Join "records" "x-body.dat" = "records/x-body.dat" ∧
  filepath_Join "." "x-body.dat" = "x-body.dat" ∧
  filepath_Join "a/.." "../x" = "../x" ∧
  filepath_Ext "0001_a-body.dat" = ".dat" ∧
  filepath_Ext "a.b/c" = "" ∧
  strings_TrimSuffix "0001_a.json" ".json" = "0001_a" ∧
  strings_ReplaceAll "a___b__c" "__" "_" = "a__b_c" ∧
  fmt_04d 8 = "0008" ∧ fmt_04d 12345 = "12345" ∧ fmt_04d (-5) = "-005" ∧
  fmt_d 0 = "0" ∧ fmt_d 10 = "10" ∧
  strconv_Atoi "0007" = Some 7 ∧ strconv_Atoi "" = None ∧
  strconv_Atoi "9223372036854775808" = None ∧
  index_non_digit "0007_a" 0 = 4 ∧ index_non_digit "42" 0 = -1 ∧
  strings_Contains "application/json; charset=utf-8" "/json" = true.
Proof. repeat split; vm_compute; reflexivity. Qed.

(* ===================================================================== *)
(** ** The sequence allocator *)
(* ===================================================================== *)

Section seed.
Implicit Types (s name : string) (d : DirEntry) (l entries : list DirEntry).

Lemma digit_val_range c : is_digit c = true → 0 ≤ digit_val c ≤ 9.
Proof.
  unfold is_digit, digit_val. intros [H1 H2]%andb_prop.
  apply N.leb_le in H1, H2. lia.
Qed.

Lemma decimal_value_nonneg s acc :
  0 ≤ acc → 0 ≤ decimal_value (digit_prefix s) acc.
Proof.
  revert acc. induction s as [|c s IH]; intros acc Hacc; simpl; [done|].
  destruct (is_digit c) eqn:Hc; simpl; [|done].
  apply IH. apply digit_val_range in Hc. lia.
Qed.

Lemma digit_prefix_all_digits s acc :
  atoi_digits (digit_prefix s) acc = Some (decimal_value (digit_prefix s) acc).
Proof.
  revert acc. induction s as [|c s IH]; intros acc; simpl; [done|].
  destruct (is_digit c) eqn:Hc; simpl; [|done]. by rewrite Hc.
Qed.

Lemma index_non_digit_prefix s i :
  index_non_digit s i =
    if decide (digit_prefix s = s) then -1
    else i + Z.of_nat (String.length (digit_prefix s)).
Proof.
  revert i. induction s as [|c s IH]; intros i; simpl; [done|].
  destruct (is_digit c) eqn:Hc.
  - rewrite IH.
    destruct (decide (digit_prefix s = s)) as [Heq|Hne].
    + rewrite decide_True by congruence. done.
    + rewrite decide_False by congruence.
      cbn [String.length]. lia.
  - rewrite decide_False by done. cbn [String.length]. lia.
Qed.

Lemma substring_digit_prefix s :
  String.substring 0 (String.length (digit_prefix s)) s = digit_prefix s.
Proof.
  induction s as [|c s IH]; simpl; [done|].
  destruct (is_digit c); simpl; [by rewrite IH|done].
Qed.

Lemma is_digit_not_sign c :
  is_digit c = true → c ≠ "-"%char ∧ c ≠ "+"%char.
Proof.
  destruct c as [[] [] [] [] [] [] [] []]; vm_compute; intros; split; congruence.
Qed.

Lemma Atoi_digit_prefix s :
  digit_prefix s ≠ "" →
  strconv_Atoi (digit_prefix s) =
    if decimal_value (digit_prefix s) 0 <? 2 ^ 63
    then Some (decimal_value (digit_prefix s) 0) else None.
Proof.
  intros Hne. pose proof (digit_prefix_all_digits s 0) as Hd.
  pose proof (decimal_value_nonneg s 0 ltac:(done)) as Hpos.
  destruct s as [|c s]; simpl in *; [done|].
  destruct (is_digit c) eqn:Hc; [|done].
  apply is_digit_not_sign in Hc as [Hm Hp].
  unfold strconv_Atoi.
  assert (match String c (digit_prefix s) with
          | String "-" s' => (true, s')
          | String "+" s' => (false, s')
          | _ => (false, String c (digit_prefix s))
          end = (false, String c (digit_prefix s))) as ->.
  { clear -Hm Hp. destruct c as [[] [] [] [] [] [] [] []]; done. }
  rewrite Hd.
  set (v := decimal_value _ _) in *.
  assert ((- 2 ^ 63 <=? v) = true) as -> by (apply Z.leb_le; lia).
  done.
Qed.

Lemma maxFileNum_entry_counted m d :
  maxFileNum_entry m d =
    match counted_value d with Some v => Z.max m v | None => m end.
Proof.
  unfold maxFileNum_entry, counted_value. destruct (IsDir d); [done|].
  rewrite index_non_digit_prefix.
  destruct (decide (digit_prefix (Name d) = Name d)) as [Heq|Hneq].
  - simpl. destruct (decide (digit_prefix (Name d) = "")); done.
  - assert ((0 + Z.of_nat (String.length (digit_prefix (Name d))) =? -1) = false)
      as -> by (apply Z.eqb_neq; lia).
    rewrite Z.add_0_l, Nat2Z.id, substring_digit_prefix.
    destruct (decide (digit_prefix (Name d) = "")) as [He|Hne].
    + rewrite He. done.
    + rewrite Atoi_digit_prefix by done.
      destruct (decimal_value (digit_prefix (Name d)) 0 <? 2 ^ 63); [|done].
      destruct (Z.gtb_spec (decimal_value (digit_prefix (Name d)) 0) m); lia.
Qed.

Lemma fold_maxFileNum_entry l m :
  fold_left maxFileNum_entry l m = fold_left Z.max (omap counted_value l) m.
Proof.
  revert m. induction l as [|d l IH]; intros m; simpl; [done|].
  rewrite IH, maxFileNum_entry_counted.
  destruct (counted_value d); done.
Qed.

(** A directory that is read without a failure is scanned to its end:
    more fuel than entries is enough for the loop to return. *)
Lemma maxFileNum_loop_healthy fuel l c m :
  (length l < fuel)%nat →
  maxFileNum_loop fuel {| pending := l; calls := c; fault := λ _, None |} m
  = Some (fold_left maxFileNum_entry l m).
Proof.
  revert l c m. induction fuel as [|fuel IH]; intros l c m Hlen; [lia|].
  destruct l as [|d l]; [done|].
  cbn [maxFileNum_loop ReadDir fault pending calls].
  rewrite IH.
  - rewrite <- fold_left_app, take_drop. done.
  - rewrite length_drop. simpl in *. lia.
Qed.

(** With a read error that stays, the loop is never left. *)
Lemma maxFileNum_loop_failing fuel l c m msg :
  maxFileNum_loop fuel
    {| pending := l; calls := c; fault := λ _, Some (ErrOther msg) |} m = None.
Proof.
  revert c m. induction fuel as [|fuel IH]; intros c m; [done|].
  cbn [maxFileNum_loop ReadDir fault pending calls fold_left]. apply IH.
Qed.

Lemma int32_id n : - 2 ^ 31 ≤ n < 2 ^ 31 → int32 n = n.
Proof.
  intros Hn. unfold int32.
  rewrite Z.mod_small by lia. lia.
Qed.

Lemma int32_range n : - 2 ^ 31 ≤ int32 n < 2 ^ 31.
Proof.
  unfold int32. pose proof (Z.mod_pos_bound (n + 2 ^ 31) (2 ^ 32) ltac:(lia)). lia.
Qed.

End seed.

Lemma fold_left_max_spec (l : list Z) (m : Z) :
  m ≤ fold_left Z.max l m
  ∧ (∀ v, v ∈ l → v ≤ fold_left Z.max l m)
  ∧ (fold_left Z.max l m = m ∨ fold_left Z.max l m ∈ l).
Proof.
  revert m. induction l as [|x l IH]; intros m; simpl.
  - repeat split; [lia| |by left]. intros v Hv. by apply elem_of_nil in Hv.
  - destruct (IH (Z.max m x)) as (Hlo & Hub & Hat). repeat split.
    + lia.
    + intros v [->|Hv]%elem_of_cons; [lia|by apply Hub].
    + destruct Hat as [Hat|Hat].
      * rewrite Hat. destruct (Z.max_spec m x) as [[_ ->]|[_ ->]];
          [right; apply elem_of_cons; by left | by left].
      * right. apply elem_of_cons. by right.
Qed.

Lemma counted_seed_spec (entries : list DirEntry) :
  1 ≤ counted_seed entries
  ∧ (∀ d v, d ∈ entries → counted_value d = Some v → v ≤ counted_seed entries)
  ∧ (counted_seed entries = 1
     ∨ ∃ d, d ∈ entries ∧ counted_value d = Some (counted_seed entries)).
Proof.
  unfold counted_seed.
  destruct (fold_left_max_spec (omap counted_value entries) 1) as (Hlo & Hub & Hat).
  repeat split; [done| |].
  - intros d v Hd Hv. apply Hub. apply list_elem_of_omap. eauto.
  - destruct Hat as [Hat|Hat]; [by left|right].
    apply list_elem_of_omap in Hat as (d & Hd & Hv). eauto.
Qed.

(** C7, where the claim and the code part. A file whose name is all digits
    is skipped, a prefix of value 0 yields 1, a prefix of 2^63 is skipped,
    and the counter wraps. *)
Lemma seed_is_not_the_largest_prefix :
  (maxFileNum (λ _, Ok (healthy_dir [ {| Name := "42"; IsDir := false |} ])) 2 "save"
     = Some (Ok 1)
   ∧ spec_seed [ {| Name := "42"; IsDir := false |} ] = 42)
  ∧ (maxFileNum (λ _, Ok (healthy_dir [ {| Name := "0000_a.json"; IsDir := false |} ])) 2 "save"
       = Some (Ok 1)
     ∧ spec_seed [ {| Name := "0000_a.json"; IsDir := false |} ] = 0)
  ∧ (maxFileNum
       (λ _, Ok (healthy_dir [ {| Name := "9223372036854775808_a.json"; IsDir := false |} ]))
       2 "save" = Some (Ok 1)
     ∧ spec_seed [ {| Name := "9223372036854775808_a.json"; IsDir := false |} ]
       = 9223372036854775808)
  ∧ atomic_AddInt32 2147483647 1 = -2147483648.
Proof. repeat split; vm_compute; reflexivity. Qed.

(** C7, as the code has it. Seeding from a directory that is read without a
    failure returns the largest of 1 and the values of the leading digit
    prefixes of the non-directory names in which the prefix is not empty,
    is followed by another byte, and is below 2^63; with files
    [0007_...] and [0003_...] the seed is 7 and the first number allocated
    is 8; an allocation returns the counter plus one, which is larger as
    long as the counter is below 2^31 - 1. *)
Theorem seed_then_allocate (os_Open : string → outcome dirfile)
    (dir : string) (entries : list DirEntry) (fuel : nat) :
  os_Open dir = Ok (healthy_dir entries) →
  (length entries < fuel)%nat →
  maxFileNum os_Open fuel dir = Some (Ok (counted_seed entries))
  ∧ (∀ numFlag, int32 numFlag ≤ 0 →
       httpHandler_seed os_Open fuel numFlag dir
       = Some (Ok (int32 (counted_seed entries))))
  ∧ 1 ≤ counted_seed entries
  ∧ (∀ d v, d ∈ entries → counted_value d = Some v → v ≤ counted_seed entries)
  ∧ (counted_seed entries = 1
     ∨ ∃ d, d ∈ entries ∧ counted_value d = Some (counted_seed entries))
  ∧ (Forall (λ d, counted_value d = None) entries → counted_seed entries = 1)
  ∧ (∀ a b,
       entries = [ {| Name := "0007_" +:+ a; IsDir := false |};
                   {| Name := "0003_" +:+ b; IsDir := false |} ] →
       counted_seed entries = 7
       ∧ atomic_AddInt32 (int32 (counted_seed entries)) 1 = 8)
  ∧ (∀ num, - 2 ^ 31 ≤ num < 2 ^ 31 - 1 →
       atomic_AddInt32 num 1 = num + 1 ∧ num < atomic_AddInt32 num 1).
Proof.
  intros Hopen Hfuel.
  assert (maxFileNum os_Open fuel dir = Some (Ok (counted_seed entries))) as Hmax.
  { unfold maxFileNum. rewrite Hopen. unfold healthy_dir.
    rewrite maxFileNum_loop_healthy by done.
    simpl. by rewrite fold_maxFileNum_entry. }
  destruct (counted_seed_spec entries) as (Hlo & Hub & Hat).
  split; [done|]. split.
  { intros numFlag Hflag. unfold httpHandler_seed.
    rewrite (proj2 (Z.leb_le _ _) Hflag), Hmax. done. }
  split; [done|]. split; [done|]. split; [done|]. split.
  { intros Hnone. destruct Hat as [Hat|(d & Hd & Hv)]; [done|].
    rewrite Forall_forall in Hnone. by rewrite (Hnone d Hd) in Hv. }
  split.
  - intros a b ->. by vm_compute.
  - intros num Hnum. unfold atomic_AddInt32. rewrite int32_id by lia. lia.
Qed.

Lemma seed_then_allocate_witness :
  maxFileNum
    (λ _, Ok (healthy_dir [ {| Name := "0007_a.json"; IsDir := false |};
                            {| Name := "0003_b.json"; IsDir := false |};
                            {| Name := "0009"; IsDir := true |} ]))
    4 "save" = Some (Ok 7).
Proof.
  pose proof (seed_then_allocate
                (λ _, Ok (healthy_dir [ {| Name := "0007_a.json"; IsDir := false |};
                                        {| Name := "0003_b.json"; IsDir := false |};
                                        {| Name := "0009"; IsDir := true |} ]))
                "save" _ 4 eq_refl ltac:(simpl; lia)) as [H _].
  exact H.
Defined.

(** C10. A directory whose reads keep failing with an error other than
    end-of-stream keeps the scan in its loop: no amount of fuel lets
    [maxFileNum] return. *)
Theorem maxFileNum_read_error_never_returns (fuel : nat)
    (entries : list DirEntry) (msg dir : string) :
  maxFileNum (λ _, Ok (failing_dir entries (ErrOther msg))) fuel dir = None.
Proof.
  unfold maxFileNum, failing_dir. by rewrite maxFileNum_loop_failing.
Qed.

(* ===================================================================== *)
(** ** Classifying a body *)
(* ===================================================================== *)

Example grammar_Valid_examples :
  grammar_Valid [x7b; x22; x61; x22; x3a; x31; x7d] = true
  ∧ grammar_Valid (list_byte_of_string " [1, 2.5e3, true, null, {}] ") = true
  ∧ grammar_Valid (list_byte_of_string "{") = false
  ∧ grammar_Valid (list_byte_of_string "01") = false
  ∧ grammar_Valid (list_byte_of_string "[1,]") = false
  ∧ grammar_Valid (list_byte_of_string "1 x") = false
  ∧ grammar_Valid [] = false
  ∧ grammar_Compact (list_byte_of_string " [1, 2 ] ") = Some (list_byte_of_string "[1,2]").
Proof. repeat split; vm_compute; reflexivity. Qed.

Example runes_examples :
  runes (list_byte_of_string "a b") = [97; 32; 98]
  ∧ runes [xc3; xa9] = [0xE9]
  ∧ runes [xe9] = [RuneError]
  ∧ runes [xe4; xb8; xad; x41] = [0x4E2D; 0x41]
  ∧ runes [xf0; x9f; x98; x80] = [0x1F600]
  ∧ runes [xc0; x80] = [RuneError; RuneError]
  ∧ runes [xed; xa0; x80] = [RuneError; RuneError; RuneError].
Proof. repeat split; vm_compute; reflexivity. Qed.

Section classify_facts.
Context `{Unicode, Mime, Json}.
Implicit Types (r : reader) (s : fs).

Lemma io_ReadFull_full r n :
  n ≤ Z.of_nat (length (rd_data r)) →
  io_ReadFull r n =
    (take (Z.to_nat n) (rd_data r), None,
     {| rd_data := drop (Z.to_nat n) (rd_data r); rd_end := rd_end r |}).
Proof.
  intros Hn. unfold io_ReadFull.
  by rewrite (proj2 (Z.leb_le _ _) Hn).
Qed.

Lemma io_ReadFull_short r n :
  Z.of_nat (length (rd_data r)) < n →
  io_ReadFull r n =
    (rd_data r,
     Some match rd_data r, rd_end r with
          | _ :: _, EOF => ErrUnexpectedEOF
          | _, e => e
          end,
     {| rd_data := []; rd_end := rd_end r |}).
Proof.
  intros Hn. unfold io_ReadFull.
  by rewrite (proj2 (Z.leb_gt _ _) Hn).
Qed.

Lemma bind_Ok {A B} (m : M A) (k : A → M B) s a s' :
  m s = (Ok a, s') → bind m k s = k a s'.
Proof. intros Hm. unfold bind. by rewrite Hm. Qed.

Lemma os_Create_ok name s :
  name ∉ denied s →
  os_Create name s =
    (Ok name, {| files := <[name := []]> (files s); denied := denied s; free := free s |}).
Proof. intros Hden. unfold os_Create. by rewrite decide_False. Qed.

Lemma file_Write_ok name b s :
  Z.of_nat (length b) ≤ free s →
  file_Write name b s =
    (Ok (), {| files := <[name := (default [] (files s !! name) ++ b)%list]> (files s);
               denied := denied s;
               free := free s - Z.of_nat (length b) |}).
Proof.
  intros Hfree. unfold file_Write. by rewrite (proj2 (Z.leb_le _ _) Hfree).
Qed.

Lemma io_Copy_ok name r s :
  rd_end r = EOF →
  Z.of_nat (length (rd_data r)) ≤ free s →
  io_Copy name r s =
    (Ok (), {| files := <[name := (default [] (files s !! name) ++ rd_data r)%list]> (files s);
               denied := denied s;
               free := free s - Z.of_nat (length (rd_data r)) |}).
Proof.
  intros Hend Hfree. unfold io_Copy.
  rewrite (bind_Ok _ _ _ _ _ (file_Write_ok name _ s Hfree)).
  by rewrite Hend.
Qed.

(** The two ends of the spool path: with a registered extension the file
    is created under the rewritten name and receives the whole stream;
    with none the code indexes an empty slice. *)
Lemma saveFile_ok buffer r contentType hint s ext0 exts :
  mime_ExtensionsByType contentType = ext0 :: exts →
  strings_TrimSuffix hint (filepath_Ext hint) +:+ ext0 ∉ denied s →
  Z.of_nat (length buffer) + Z.of_nat (length (rd_data r)) ≤ free s →
  rd_end r = EOF →
  ∃ s',
    saveBody_saveFile buffer r contentType hint s
      = (Ok ("", strings_TrimSuffix hint (filepath_Ext hint) +:+ ext0), s')
    ∧ files s' !! (strings_TrimSuffix hint (filepath_Ext hint) +:+ ext0)
      = Some (buffer ++ rd_data r)%list
    ∧ denied s' = denied s.
Proof.
  intros Hext Hden Hfree Hend.
  set (name := strings_TrimSuffix hint (filepath_Ext hint) +:+ ext0) in *.
  unfold saveBody_saveFile. rewrite Hext.
  assert ((0 <=? Z.of_nat (length (ext0 :: exts))) = true) as ->
    by (apply Z.leb_le; lia).
  cbn [lookup list_lookup]. fold name.
  rewrite (bind_Ok _ _ s name s) by done.
  rewrite (bind_Ok _ _ _ _ _ (os_Create_ok name s Hden)).
  set (s1 := {| files := <[name := []]> (files s) |}).
  assert (∃ s2, (if 0 <? Z.of_nat (length buffer)
                 then file_Write name buffer else ret ()) s1 = (Ok (), s2)
                ∧ files s2 !! name = Some buffer
                ∧ denied s2 = denied s
                ∧ free s2 = free s - Z.of_nat (length buffer))
    as (s2 & Hw & Hf2 & Hd2 & Hfr2).
  { destruct (0 <? Z.of_nat (length buffer)) eqn:Hlen.
    - rewrite file_Write_ok by (subst s1; simpl; lia).
      eexists. split; [done|]. subst s1. cbn [files denied free].
      rewrite !lookup_insert_eq. done.
    - apply Z.ltb_ge in Hlen. destruct buffer; [|simpl in Hlen; lia].
      exists s1. subst s1. cbn [files denied free length].
      rewrite lookup_insert_eq. repeat split; first [done|lia]. }
  rewrite (bind_Ok _ _ _ _ _ Hw).
  rewrite (bind_Ok _ _ _ _ _ (io_Copy_ok name r s2 Hend ltac:(lia))).
  eexists. split; [done|]. cbn [files denied].
  rewrite lookup_insert_eq, Hf2. done.
Qed.

Lemma saveFile_panics buffer r contentType hint s :
  mime_ExtensionsByType contentType = [] →
  saveBody_saveFile buffer r contentType hint s
    = (Panic "index out of range [0] with length 0", s).
Proof. intros Hext. unfold saveBody_saveFile. by rewrite Hext. Qed.

Lemma saveFile_Ok_inv buffer r contentType hint s body file s' :
  saveBody_saveFile buffer r contentType hint s = (Ok (body, file), s') →
  body = ""
  ∧ ∃ ext0 exts, mime_ExtensionsByType contentType = ext0 :: exts
                 ∧ file = spool_name hint ext0.
Proof.
  unfold saveBody_saveFile.
  destruct (mime_ExtensionsByType contentType) as [|ext0 exts] eqn:Hext; [done|].
  assert ((0 <=? Z.of_nat (length (ext0 :: exts))) = true) as ->
    by (apply Z.leb_le; lia).
  cbn [lookup list_lookup]. fold (spool_name hint ext0).
  rewrite (bind_Ok _ _ s (spool_name hint ext0) s) by done.
  unfold bind at 1. destruct (os_Create _ s) as [[f| | |] s1]; try done.
  unfold bind at 1.
  destruct ((if 0 <? Z.of_nat (length buffer) then file_Write f buffer else ret ()) s1)
    as [[[]| | |] s2]; try done.
  unfold bind at 1. destruct (io_Copy f r s2) as [[[]| | |] s3]; try done.
  unfold ret. intros [= <- <- <-]. eauto.
Qed.

Lemma saveBody_inline r contentType hint s :
  Z.of_nat (length (rd_data r)) < peek_window →
  rd_end r = EOF ∨ rd_end r = ErrUnexpectedEOF →
  forallb printable (runes (rd_data r)) = true →
  saveBody r contentType hint s = (Ok (string_of_list_byte (rd_data r), ""), s).
Proof.
  intros Hlen Hend Hpr. unfold saveBody. rewrite io_ReadFull_short by done.
  destruct (rd_data r) as [|b data] eqn:Hdata.
  - destruct Hend as [-> | ->]; done.
  - assert (match rd_end r with EOF => ErrUnexpectedEOF | e => e end = ErrUnexpectedEOF)
      as -> by (destruct Hend as [-> | ->]; done).
    by rewrite Hpr.
Qed.

Lemma saveBody_spool r contentType hint s :
  takes_spool_path r →
  ∃ buffer rest,
    rd_data r = (buffer ++ rd_data rest)%list ∧ rd_end rest = rd_end r
    ∧ saveBody r contentType hint s = saveBody_saveFile buffer rest contentType hint s.
Proof.
  intros [Hfull | (Hlen & Hne & Hend & Hpr)]; unfold saveBody.
  - rewrite io_ReadFull_full by done.
    eexists _, _. split; [|split; [|done]]; simpl; [|done].
    by rewrite take_drop.
  - rewrite io_ReadFull_short by done.
    destruct (rd_data r) as [|b data] eqn:Hdata; [done|].
    assert (match rd_end r with EOF => ErrUnexpectedEOF | e => e end = ErrUnexpectedEOF)
      as -> by (destruct Hend as [-> | ->]; done).
    rewrite Hpr. eexists _, _. split; [|split; [|done]]; simpl; [|done].
    by rewrite app_nil_r.
Qed.

Lemma saveBody_Ok_inv r contentType hint s body file s' :
  saveBody r contentType hint s = (Ok (body, file), s') →
  (body = string_of_list_byte (rd_data r) ∧ file = "" ∧ s' = s
   ∧ Z.of_nat (length (rd_data r)) < peek_window
   ∧ forallb printable (runes (rd_data r)) = true)
  ∨ (body = "" ∧ takes_spool_path r
     ∧ ∃ ext0 exts, mime_ExtensionsByType contentType = ext0 :: exts
                    ∧ file = spool_name hint ext0).
Proof.
  unfold saveBody.
  destruct (Z.le_gt_cases peek_window (Z.of_nat (length (rd_data r)))) as [Hfull|Hshort].
  - rewrite io_ReadFull_full by done. intros Hs. right.
    apply saveFile_Ok_inv in Hs as (-> & Hext). repeat split; [by left|done].
  - rewrite io_ReadFull_short by lia.
    destruct (rd_data r) as [|b data] eqn:Hdata.
    + destruct (rd_end r) eqn:Hend; unfold ret, fail; try done.
      * intros [= <- <- <-]. left. repeat split; done.
      * intros [= <- <- <-]. left. repeat split; done.
    + destruct (rd_end r) eqn:Hend; unfold ret, fail; try done.
      * destruct (forallb printable (runes (b :: data))) eqn:Hpr.
        -- intros [= <- <- <-]. left. repeat split; done.
        -- intros Hs. right. apply saveFile_Ok_inv in Hs as (-> & Hext).
           repeat split; [|done]. right. rewrite Hdata. repeat split; try done.
           by left.
      * destruct (forallb printable (runes (b :: data))) eqn:Hpr.
        -- intros [= <- <- <-]. left. repeat split; done.
        -- intros Hs. right. apply saveFile_Ok_inv in Hs as (-> & Hext).
           repeat split; [|done]. right. rewrite Hdata. repeat split; try done.
           by right.
Qed.

End classify_facts.

Lemma peek_window_value : peek_window = 65536.
Proof. reflexivity. Qed.


Section body_in_record.
Context `{Unicode, Mime, Json}.

Lemma or_Fatalf_Ok {A} (m : M A) s a s' :
  m s = (Ok a, s') → or_Fatalf m s = (Ok a, s').
Proof. intros Hm. unfold or_Fatalf. by rewrite Hm. Qed.

Lemma or_Fatalf_Err {A} (m : M A) s e s' :
  m s = (Err e, s') → or_Fatalf m s = (Exit 1, s').
Proof. intros Hm. unfold or_Fatalf. by rewrite Hm. Qed.

Lemma capture_body_inline (r : HttpRequest) (body : reader)
    (filename : string) (request : RequestResponse) (s : fs) :
  isContentMultiPart (wire_Get (req_Header r) "Content-Type") = false →
  isContentJson (wire_Get (req_Header r) "Content-Type") = false →
  rd_end body = EOF →
  Z.of_nat (length (rd_data body)) < peek_window →
  forallb printable (runes (rd_data body)) = true →
  capture_body r body filename request s
    = (Ok (set_body request (string_of_list_byte (rd_data body)) ""), s).
Proof.
  intros Hmp Hjson Hend Hlen Hpr. unfold capture_body. rewrite Hmp, Hjson.
  rewrite (bind_Ok _ _ _ _ _
             (or_Fatalf_Ok _ _ _ _ (saveBody_inline body _ _ s Hlen (or_introl Hend) Hpr))).
  done.
Qed.

Lemma capture_body_spooled (r : HttpRequest) (body : reader)
    (filename : string) (request : RequestResponse) (s : fs) ext0 exts :
  isContentMultiPart (wire_Get (req_Header r) "Content-Type") = false →
  isContentJson (wire_Get (req_Header r) "Content-Type") = false →
  rd_end body = EOF →
  peek_window ≤ Z.of_nat (length (rd_data body)) →
  mime_ExtensionsByType (wire_Get (req_Header r) "Content-Type") = ext0 :: exts →
  spool_name (strings_TrimSuffix filename ".json" +:+ "-body.dat") ext0 ∉ denied s →
  Z.of_nat (length (rd_data body)) ≤ free s →
  ∃ s',
    capture_body r body filename request s
      = (Ok (set_body request ""
               (spool_name (strings_TrimSuffix filename ".json" +:+ "-body.dat") ext0)),
         s')
    ∧ files s' !! spool_name (strings_TrimSuffix filename ".json" +:+ "-body.dat") ext0
      = Some (rd_data body).
Proof.
  intros Hmp Hjson Hend Hlen Hext Hden Hfree. unfold capture_body. rewrite Hmp, Hjson.
  destruct (saveBody_spool body (wire_Get (req_Header r) "Content-Type")
              (strings_TrimSuffix filename ".json" +:+ "-body.dat") s
              (or_introl Hlen)) as (buffer & rest & Hdata & Hrest & Hsave).
  destruct (saveFile_ok buffer rest _
              (strings_TrimSuffix filename ".json" +:+ "-body.dat") s ext0 exts Hext Hden)
    as (s' & Hfile & Hcontent & _).
  { rewrite Hdata, length_app in Hfree. lia. }
  { congruence. }
  exists s'. rewrite <- Hsave in Hfile.
  rewrite (bind_Ok _ _ _ _ _ (or_Fatalf_Ok _ _ _ _ Hfile)).
  split; [done|]. by rewrite Hdata.
Qed.

(** C1, as the code has it. For a content type that is neither multipart
    nor JSON and a stream that ends cleanly: a body shorter than 64 KiB
    whose runes are all letters, digits or white space is stored inline in
    [body]; a body of 64 KiB or more is spooled, under the hint with the
    first registered extension of the type, when the type has one and the
    file can be written, and [body_file] names that file. *)
Theorem body_inline_or_spooled (r : HttpRequest) (body : reader)
    (filename : string) (request : RequestResponse) (s : fs) :
  isContentMultiPart (wire_Get (req_Header r) "Content-Type") = false →
  isContentJson (wire_Get (req_Header r) "Content-Type") = false →
  rd_end body = EOF →
  (Z.of_nat (length (rd_data body)) < peek_window →
   forallb printable (runes (rd_data body)) = true →
   capture_body r body filename request s
     = (Ok (set_body request (string_of_list_byte (rd_data body)) ""), s))
  ∧ (peek_window ≤ Z.of_nat (length (rd_data body)) →
     ∀ ext0 exts,
       mime_ExtensionsByType (wire_Get (req_Header r) "Content-Type") = ext0 :: exts →
       spool_name (strings_TrimSuffix filename ".json" +:+ "-body.dat") ext0 ∉ denied s →
       Z.of_nat (length (rd_data body)) ≤ free s →
       ∃ s',
         capture_body r body filename request s
           = (Ok (set_body request ""
                    (spool_name (strings_TrimSuffix filename ".json" +:+ "-body.dat") ext0)),
              s')
         ∧ files s' !! spool_name (strings_TrimSuffix filename ".json" +:+ "-body.dat") ext0
           = Some (rd_data body)).
Proof.
  intros Hmp Hjson Hend. split.
  - by apply capture_body_inline.
  - intros Hlen ext0 exts Hext Hden Hfree. by eapply capture_body_spooled.
Qed.

Lemma saveBody_spool_panics (r : reader) (contentType hint : string) (s : fs) :
  mime_ExtensionsByType contentType = [] →
  takes_spool_path r →
  saveBody r contentType hint s = (Panic "index out of range [0] with length 0", s).
Proof.
  intros Hext Hspool.
  destruct (saveBody_spool r contentType hint s Hspool) as (buffer & rest & _ & _ & ->).
  by apply saveFile_panics.
Qed.

(** C9. A body that takes the spool path with a content type that has no
    registered extension, as the empty content type has none, ends in a
    runtime panic: [ext[0]] is evaluated on the empty slice. *)
Theorem spool_without_extension_panics (r : reader)
    (contentType hint : string) (s : fs) :
  takes_spool_path r →
  (mime_ExtensionsByType contentType = [] →
   saveBody r contentType hint s = (Panic "index out of range [0] with length 0", s))
  ∧ saveBody r "" hint s = (Panic "index out of range [0] with length 0", s).
Proof.
  intros Hspool. split.
  - intros Hext. by apply saveBody_spool_panics.
  - apply saveBody_spool_panics; [apply mime_ExtensionsByType_empty|done].
Qed.

End body_in_record.

(** C1, where the claim and the code part: a body of exactly 64 KiB of the
    letter a, followed by the end of the stream, is spooled to a file. *)
Lemma body_of_exactly_64KiB_is_spooled :
  ∃ s',
    capture_body (post "/upload" "text/html" (stream (replicate (Z.to_nat 65536) "a"%byte)))
      (stream (replicate (Z.to_nat 65536) "a"%byte))
      "0002_20240101_000000_POST_upload.json" blank_request roomy_disk
    = (Ok (set_body blank_request "" "0002_20240101_000000_POST_upload-body.htm"), s')
    ∧ files s' !! "0002_20240101_000000_POST_upload-body.htm"
      = Some (replicate (Z.to_nat 65536) "a"%byte).
Proof.
  apply (capture_body_spooled
           (post "/upload" "text/html" (stream (replicate (Z.to_nat 65536) "a"%byte)))
           (stream (replicate (Z.to_nat 65536) "a"%byte))
           "0002_20240101_000000_POST_upload.json" blank_request roomy_disk
           ".htm" [".html"] eq_refl eq_refl eq_refl).
  - cbn [rd_data stream]. rewrite length_replicate, peek_window_value. lia.
  - reflexivity.
  - cbn [denied roomy_disk]. apply not_elem_of_empty.
  - cbn [rd_data stream free roomy_disk]. rewrite length_replicate. lia.
Qed.

Lemma body_inline_or_spooled_witness :
  capture_body (post "/notes" "text/html" (stream (list_byte_of_string "hello world")))
    (stream (list_byte_of_string "hello world"))
    "0002_20240101_000000_POST_notes.json" blank_request roomy_disk
  = (Ok (set_body blank_request "hello world" ""), roomy_disk).
Proof.
  apply (body_inline_or_spooled
           (post "/notes" "text/html" (stream (list_byte_of_string "hello world")))
           (stream (list_byte_of_string "hello world"))
           "0002_20240101_000000_POST_notes.json" blank_request roomy_disk
           eq_refl eq_refl eq_refl).
  - vm_compute. reflexivity.
  - vm_compute. reflexivity.
Defined.

Lemma spool_without_extension_panics_witness :
  saveBody (stream [x00]) "" "0002_20240101_000000_POST_upload-body.dat" roomy_disk
  = (Panic "index out of range [0] with length 0", roomy_disk).
Proof.
  apply (spool_without_extension_panics (stream [x00]) "application/octet-stream").
  right. split; [|split; [|split]].
  - vm_compute. reflexivity.
  - discriminate.
  - left. reflexivity.
  - vm_compute. reflexivity.
Defined.

(* ===================================================================== *)
(** ** JSON bodies *)
(* ===================================================================== *)

Section readJson_facts.
Context `{Json}.
Implicit Types (r : reader).

Lemma ReadAll_LimitReader_over r n :
  n ≤ Z.of_nat (length (rd_data r)) →
  io_ReadAll_LimitReader r n = Ok (take (Z.to_nat n) (rd_data r)).
Proof.
  intros Hlen. unfold io_ReadAll_LimitReader.
  by rewrite (proj2 (Z.leb_le _ _) Hlen).
Qed.

Lemma ReadAll_LimitReader_under r n :
  Z.of_nat (length (rd_data r)) < n →
  io_ReadAll_LimitReader r n =
    match rd_end r with EOF => Ok (rd_data r) | e => Err e end
  ∧ take (Z.to_nat n) (rd_data r) = rd_data r.
Proof.
  intros Hlen. unfold io_ReadAll_LimitReader.
  rewrite (proj2 (Z.leb_gt _ _) Hlen). split; [done|].
  apply take_ge. lia.
Qed.




Lemma readJson_whole r :
  Z.of_nat (length (rd_data r)) ≤ json_limit →
  rd_end r = EOF →
  json_Valid (rd_data r) = true →
  readJson r = Ok (rd_data r).
Proof.
  intros Hlen Hend Hv. unfold readJson.
  destruct (Z.le_gt_cases json_limit (Z.of_nat (length (rd_data r)))) as [Hover|Hunder].
  - rewrite ReadAll_LimitReader_over by lia.
    rewrite take_ge by lia. by rewrite Hv.
  - destruct (ReadAll_LimitReader_under r json_limit Hunder) as [-> _].
    by rewrite Hend, Hv.
Qed.



End readJson_facts.





(* ===================================================================== *)
(** ** Multipart bodies *)
(* ===================================================================== *)

Section multipart_facts.
Context `{Unicode, Mime, Json}.


(** Parts that are short and printable are all kept inline, and the disk
    is not touched. *)
Lemma readMultiPart_loop_inline parts jsonFilename n acc s :
  Forall (λ p, isContentJson (wire_Get (part_Header p) "Content-Type") = false
               ∧ rd_end (part_body p) = EOF
               ∧ Z.of_nat (length (rd_data (part_body p))) < peek_window
               ∧ forallb printable (runes (rd_data (part_body p))) = true) parts →
  readMultiPart_loop parts EOF jsonFilename n acc s
  = (Ok (acc ++ (inline_part <$> parts))%list, s).
Proof.
  intros Hall. revert n acc. induction Hall as [|p parts (Hjson & Hend & Hlen & Hpr) _ IH];
    intros n acc; simpl.
  - by rewrite app_nil_r.
  - rewrite Hjson.
    destruct (negb (bool_decide (part_FileName p = "")));
      rewrite (bind_Ok _ _ _ _ _ (saveBody_inline _ _ _ s Hlen (or_introl Hend) Hpr));
      rewrite IH, <- app_assoc; done.
Qed.


End multipart_facts.



(* ===================================================================== *)
(** ** The handler *)
(* ===================================================================== *)

Section handler_facts.
Context `{Unicode, Mime, Json, JsonEncoder}.

Lemma bind_Exit {A B} (m : M A) (k : A → M B) s c s' :
  m s = (Exit c, s') → bind m k s = (Exit c, s').
Proof. intros Hm. unfold bind. by rewrite Hm. Qed.

Lemma capture_body_failed (r : HttpRequest) (body : reader) (filename : string)
    (request : RequestResponse) (s s' : fs) (e : error) :
  (isContentMultiPart (wire_Get (req_Header r) "Content-Type") = true
   ∧ readMultiPart r (wire_Get (req_Header r) "Content-Type") filename s = (Err e, s'))
  ∨ (isContentMultiPart (wire_Get (req_Header r) "Content-Type") = false
     ∧ isContentJson (wire_Get (req_Header r) "Content-Type") = true
     ∧ readJson body = Err e ∧ s' = s)
  ∨ (isContentMultiPart (wire_Get (req_Header r) "Content-Type") = false
     ∧ isContentJson (wire_Get (req_Header r) "Content-Type") = false
     ∧ saveBody body (wire_Get (req_Header r) "Content-Type")
         (strings_TrimSuffix filename ".json" +:+ "-body.dat") s = (Err e, s')) →
  capture_body r body filename request s = (Exit 1, s').
Proof.
  unfold capture_body.
  intros [(-> & Hfail)|[(-> & -> & Hfail & ->)|(-> & -> & Hfail)]].
  - apply bind_Exit. by eapply or_Fatalf_Err.
  - apply bind_Exit. apply (or_Fatalf_Err _ _ e). by rewrite Hfail.
  - apply bind_Exit. by eapply or_Fatalf_Err.
Qed.

(** C5. When the classification of the body of a request fails, with a
    multipart error, an invalid JSON body or an error of [saveBody], the
    handler ends in [log.Fatalf]: the process exits with status 1, no
    response is written, and the disk stays as the classification left
    it, without a record file. *)
Theorem failed_classification_exits (saveDir : string)
    (responser : HttpRequest → HttpResponse) (stamp rfc3339 : string)
    (r : HttpRequest) (srv : server) (c : ascii) (path : string)
    (body : reader) (e : error) (s' : fs) :
  req_Path r = String c path →
  req_Body r = Some body →
  (isContentMultiPart (wire_Get (req_Header r) "Content-Type") = true
   ∧ readMultiPart r (wire_Get (req_Header r) "Content-Type")
       (record_filename (atomic_AddInt32 (num srv) 1) stamp (req_Method r)
          (sanitize_path path))
       (disk srv) = (Err e, s'))
  ∨ (isContentMultiPart (wire_Get (req_Header r) "Content-Type") = false
     ∧ isContentJson (wire_Get (req_Header r) "Content-Type") = true
     ∧ readJson body = Err e ∧ s' = disk srv)
  ∨ (isContentMultiPart (wire_Get (req_Header r) "Content-Type") = false
     ∧ isContentJson (wire_Get (req_Header r) "Content-Type") = false
     ∧ saveBody body (wire_Get (req_Header r) "Content-Type")
         (strings_TrimSuffix
            (record_filename (atomic_AddInt32 (num srv) 1) stamp (req_Method r)
               (sanitize_path path)) ".json" +:+ "-body.dat")
         (disk srv) = (Err e, s')) →
  handler saveDir responser stamp rfc3339 r srv
  = (Exit 1, {| num := atomic_AddInt32 (num srv) 1; disk := s' |}).
Proof.
  intros Hpath Hbody Hfail. unfold handler. rewrite Hpath, Hbody.
  rewrite (bind_Exit _ _ _ _ _ (capture_body_failed r body _ _ _ _ e Hfail)).
  done.
Qed.

(** The number a request gets is the counter plus one, whatever becomes
    of the request afterwards. *)
Lemma handler_allocates (saveDir : string) (responser : HttpRequest → HttpResponse)
    (stamp rfc3339 : string) (r : HttpRequest) (srv : server) :
  req_Path r ≠ "" →
  num (handler saveDir responser stamp rfc3339 r srv).2 = atomic_AddInt32 (num srv) 1.
Proof.
  intros Hpath. unfold handler. destruct (req_Path r) as [|c path]; [done|].
  by destruct (bind _ _ (disk srv)).
Qed.

End handler_facts.

Lemma failed_classification_exits_witness :
  handler "records" (λ _, {| resp_status := 200; resp_body := "OK" |})
    "20240101_000000" "2024-01-01T00:00:00Z"
    (post "/api/items" "application/json" (stream (list_byte_of_string "{")))
    {| num := 7; disk := roomy_disk |}
  = (Exit 1, {| num := 8; disk := roomy_disk |}).
Proof.
  apply (failed_classification_exits "records" _ "20240101_000000" "2024-01-01T00:00:00Z"
           (post "/api/items" "application/json" (stream (list_byte_of_string "{")))
           {| num := 7; disk := roomy_disk |} "/"%char "api/items"
           (stream (list_byte_of_string "{")) (ErrOther "invalid json") roomy_disk).
  - reflexivity.
  - reflexivity.
  - right. left. split; [|split; [|split]]; vm_compute; reflexivity.
Defined.

(* ===================================================================== *)
(** ** Replay *)
(* ===================================================================== *)

Example canonical_key_examples :
  canonical_key "content-type" = "Content-Type"
  ∧ canonical_key "X-REQUEST-id" = "X-Request-Id"
  ∧ canonical_key "not a token" = "not a token".
Proof. repeat split; vm_compute; reflexivity. Qed.

Section replay_facts.
Context `{Mime, Json, MultipartWriter}.
Implicit Types (req : RequestResponse) (header : WireHeader) (s : fs).


Lemma parseRecordBody_file req header baseDir s :
  BodyFile req ≠ "" →
  parseRecordBody req header baseDir s =
    (match files s !! filepath_Join baseDir (BodyFile req) with
     | Some content => Ok (RcFile content)
     | None => Err (ErrOther ("open " +:+ filepath_Join baseDir (BodyFile req)))
     end,
     default_content_type header (mime_TypeByExtension (filepath_Ext (BodyFile req)))).
Proof.
  intros Hfile. unfold parseRecordBody.
  by rewrite (bool_decide_eq_false_2 _ Hfile).
Qed.

Lemma parseRecordBody_json req header baseDir s data :
  BodyFile req = "" → BodyJson req = Some data →
  parseRecordBody req header baseDir s =
    (match json_Compact data with
     | Some buffer => Ok (RcBuffer buffer)
     | None => Err (ErrOther "failed to parse json")
     end,
     default_content_type header "application/json").
Proof.
  intros Hfile Hjson. unfold parseRecordBody.
  by rewrite (bool_decide_eq_true_2 _ Hfile), Hjson.
Qed.


Lemma parseRecordBody_text req header baseDir s :
  BodyFile req = "" → BodyJson req = None → BodyMultiPart req = None →
  parseRecordBody req header baseDir s =
    (Ok (RcString (Body req)), default_content_type header "text/plain").
Proof.
  intros Hfile Hjson Hparts. unfold parseRecordBody.
  by rewrite (bool_decide_eq_true_2 _ Hfile), Hjson, Hparts.
Qed.




(** C4. For a record with a [body_file], the file [clientCmd] opens is the
    relative name joined to the last element of the path of the record
    file, which is the name of the record file and not its directory. *)
Theorem replay_opens_under_the_record_name (file : string)
    (record : TransactionRecord) (request : RequestResponse) (s : fs) :
  Request record = Some request →
  BodyFile request ≠ "" →
  (clientCmd_body file record s).1 =
    match files s !! replay_path file (BodyFile request) with
    | Some content => Ok (RcFile content)
    | None => Err (ErrOther ("open " +:+ replay_path file (BodyFile request)))
    end.
Proof.
  intros Hreq Hfile. unfold clientCmd_body. rewrite Hreq.
  by rewrite parseRecordBody_file.
Qed.

End replay_facts.


Lemma replay_opens_under_the_record_name_witness :
  spec_replay_path "records/0001_a.json" "0001_a-body.dat" = "records/0001_a-body.dat"
  ∧ replay_path "records/0001_a.json" "0001_a-body.dat" = "0001_a.json/0001_a-body.dat"
  ∧ (clientCmd_body "records/0001_a.json" (record_with_file "0001_a-body.dat")
       (disk_with "records/0001_a-body.dat" [x00; x01])).1
    = Err (ErrOther "open 0001_a.json/0001_a-body.dat").
Proof.
  split; [vm_compute; reflexivity|]. split; [vm_compute; reflexivity|].
  rewrite (replay_opens_under_the_record_name "records/0001_a.json"
             (record_with_file "0001_a-body.dat") _
             (disk_with "records/0001_a-body.dat" [x00; x01]) eq_refl);
    [|vm_compute; discriminate].
  vm_compute. reflexivity.
Defined.

(* ===================================================================== *)
(** ** The handler on three requests *)
(* ===================================================================== *)

(** A short text body goes into the record; a PNG body goes to a file in
    the working directory, next to which the record is not; a binary body
    of a type without extension ends the handler in a panic. In the first
    two cases request 8 gets its record file under the save directory. *)
Example handler_examples :
  let respond := λ _ : HttpRequest, {| resp_status := 200; resp_body := "OK" |} in
  let run := λ r, handler "records" respond "20240101_000000" "2024-01-01T00:00:00Z" r
                    {| num := 7; disk := roomy_disk |} in
  let text := run (post "/notes/a.txt" "text/html"
                     (stream (list_byte_of_string "hello world"))) in
  let png := run (post "/img" "image/png" (stream [x89; x50])) in
  let blob := run (post "/img" "application/octet-stream" (stream [x89; x50])) in
  (text.1 = Ok {| resp_status := 200; resp_body := "OK" |}
   ∧ num text.2 = 8
   ∧ dom (files (disk text.2)) = {[ "records/0008_20240101_000000_POST_notes_a_txt.json" ]})
  ∧ (png.1 = Ok {| resp_status := 200; resp_body := "OK" |}
     ∧ files (disk png.2) !! "0008_20240101_000000_POST_img-body.png" = Some [x89; x50]
     ∧ is_Some (files (disk png.2) !! "records/0008_20240101_000000_POST_img.json"))
  ∧ blob.1 = Panic "index out of range [0] with length 0".
Proof.
  cbv zeta. repeat split; try (vm_compute; reflexivity).
  vm_compute. eauto.
Qed.

(* ===================================================================== *)
(** ** More on the header codec *)
(* ===================================================================== *)

Section header_more.
Implicit Types (h : gmap string hval) (H : WireHeader) (k : string).

Lemma Header_Get_lookup (h : Header) k :
  Header_Get h k =
    match default ∅ h !! k with
    | Some (VString s) => s
    | Some (VStrings s) => default "" (head s)
    | _ => ""
    end.
Proof.
  destruct h as [m|]; simpl; [|by rewrite lookup_empty].
  by destruct (m !! k) as [[]|].
Qed.

(** [Get] on a folded header answers with the first of the values the wire
    header holds under the key as it is spelled, or with the empty string
    when the key is missing or has no value: folding loses nothing [Get]
    can see, and [Get] does not look under another spelling of the key. *)
Theorem Get_after_fold H k :
  Header_Get (FromHttpHeader None H) k = default "" (H !! k ≫= head).
Proof.
  rewrite Header_Get_lookup, lookup_FromHttpHeader.
  by destruct (H !! k) as [[|x [|y l]]|].
Qed.

Lemma lookup_FromHttpHeader_into (h0 : Header) H k :
  default ∅ (FromHttpHeader h0 H) !! k =
    match H !! k ≫= fold_value with
    | Some x => Some x
    | None => default ∅ h0 !! k
    end.
Proof.
  unfold FromHttpHeader. case_decide as Hsz.
  - apply map_size_empty_inv in Hsz. subst. by rewrite lookup_empty.
  - simpl. apply lookup_fold_FromHttpHeader.
Qed.

(** Folding into a header that has entries already: an empty wire header
    leaves it as it is, a nil header included; otherwise the result is a
    map in which the keys of the wire header that have a value are
    overwritten, every other key keeps its entry, and a key without value
    is not stored. *)
Theorem fold_into_existing (h0 : Header) H :
  (H = ∅ → FromHttpHeader h0 H = h0)
  ∧ (H ≠ ∅ → is_Some (FromHttpHeader h0 H))
  ∧ (∀ k, H !! k = None ∨ H !! k = Some [] →
       default ∅ (FromHttpHeader h0 H) !! k = default ∅ h0 !! k)
  ∧ (∀ k x l, H !! k = Some (x :: l) →
       default ∅ (FromHttpHeader h0 H) !! k
       = Some (if decide (l = []) then VString x else VStrings (x :: l))).
Proof.
  split; [|split; [|split]].
  - intros ->. unfold FromHttpHeader. by rewrite decide_True.
  - intros Hne. unfold FromHttpHeader. rewrite decide_False; [done|].
    intros Hsz. by apply map_size_empty_inv in Hsz.
  - intros k [Hk|Hk]; by rewrite lookup_FromHttpHeader_into, Hk.
  - intros k x l Hk. rewrite lookup_FromHttpHeader_into, Hk.
    by destruct l.
Qed.

(** Unfolding keeps the keys bound to a string or to a sequence of strings
    and silently drops every other key; the nil header unfolds to the empty
    wire header. *)
Theorem unfold_drops_other_shapes (h : Header) k :
  (ToHttpHeader h !! k = None
   ↔ default ∅ h !! k = None ∨ default ∅ h !! k = Some VOther)
  ∧ ToHttpHeader None = ∅
  ∧ dom (ToHttpHeader h) ⊆ dom (default ∅ h).
Proof.
  split; [|split].
  - rewrite lookup_ToHttpHeader.
    destruct (default ∅ h !! k) as [[]|]; simpl;
      (split; [intros; try done; by (left + right)|intros [|]; done]).
  - apply map_eq. intros k'. by rewrite lookup_ToHttpHeader, !lookup_empty.
  - intros k' [v Hv]%elem_of_dom. rewrite lookup_ToHttpHeader in Hv.
    apply elem_of_dom. destruct (default ∅ h !! k'); [eauto|done].
Qed.

(** Unfolding and folding again gives the folded header back, when its
    values have the shapes folding writes. *)
Theorem fold_after_unfold h :
  (∀ k v, h !! k = Some v → folded_value v) →
  default ∅ (FromHttpHeader None (ToHttpHeader (Some h))) = h.
Proof.
  intros Hshape. apply map_eq. intros k.
  rewrite lookup_FromHttpHeader, lookup_ToHttpHeader. simpl.
  destruct (h !! k) as [v|] eqn:Hk; simpl; [|done].
  specialize (Hshape k v Hk). destruct v as [s|l|]; simpl in *; try done.
  destruct l as [|a [|b l]]; simpl in *; try lia. done.
Qed.

Lemma lookup_ToMIMEHeader canon h :
  (∀ k s, h !! k = Some (VString s) → canon k = k) →
  ∀ k, ToMIMEHeader canon (Some h) !! k = h !! k ≫= unfold_value.
Proof.
  unfold ToMIMEHeader. simpl.
  apply (map_fold_weak_ind
           (λ r m, (∀ k s, m !! k = Some (VString s) → canon k = k) →
                   ∀ k, r !! k = m !! k ≫= unfold_value)).
  - intros _ k. by rewrite !lookup_empty.
  - intros i x m r Hi IH Hcanon k.
    assert (∀ k s, m !! k = Some (VString s) → canon k = k) as Hm.
    { intros k' s Hk'. apply (Hcanon k' s).
      rewrite lookup_insert_ne; [done|]. intros ->. by rewrite Hi in Hk'. }
    specialize (IH Hm).
    destruct (decide (i = k)) as [->|Hne].
    + rewrite lookup_insert_eq. simpl. destruct x as [s|l|]; simpl.
      * rewrite (Hcanon k s) by apply lookup_insert_eq. apply lookup_insert_eq.
      * apply lookup_insert_eq.
      * by rewrite IH, Hi.
    + rewrite (lookup_insert_ne m) by done. destruct x as [s|l|].
      * rewrite (Hcanon i s) by apply lookup_insert_eq.
        rewrite lookup_insert_ne by done. apply IH.
      * rewrite lookup_insert_ne by done. apply IH.
      * apply IH.
Qed.

Lemma ToMIMEHeader_FromMIMEHeader canon H :
  (∀ k v, H !! k = Some v → v ≠ [] ∧ canon k = k) →
  ToMIMEHeader canon (FromMIMEHeader None H) = H.
Proof.
  intros Hok. apply map_eq. intros k.
  destruct (FromMIMEHeader None H) as [h|] eqn:Hfold.
  - assert (∀ k', h !! k' = H !! k' ≫= fold_value) as Hh.
    { intros k'. pose proof (lookup_FromHttpHeader H k') as Hl.
      unfold FromMIMEHeader in Hfold. by rewrite Hfold in Hl. }
    rewrite lookup_ToMIMEHeader.
    + rewrite Hh. destruct (H !! k) as [v|] eqn:Hk; simpl; [|done].
      destruct (fold_value v) as [x|] eqn:Hf; simpl.
      * by apply unfold_fold_value.
      * destruct v; [|by destruct v]. by destruct (Hok k [] Hk).
    + intros k' s Hk'. rewrite Hh in Hk'.
      destruct (H !! k') as [v|] eqn:HHk'; [|done].
      by destruct (Hok k' v HHk').
  - unfold FromMIMEHeader, FromHttpHeader in Hfold.
    case_decide as Hsz; [|done].
    apply map_size_empty_inv in Hsz. subst.
    unfold ToMIMEHeader. simpl. by rewrite map_fold_empty.
Qed.

(** With keys that are canonical already, as the keys of a parsed part
    header are, the header of a part comes back from its folded form
    through [ToMIMEHeader], when every key has a value. *)
Theorem MIME_header_round_trip canon H :
  (∀ k v, H !! k = Some v → v ≠ [] ∧ canon k = k) →
  ToMIMEHeader canon (FromMIMEHeader None H) = H.
Proof. apply ToMIMEHeader_FromMIMEHeader. Qed.

End header_more.

Lemma fold_after_unfold_witness :
  default ∅ (FromHttpHeader None
               (ToHttpHeader (Some (<["Host" := VString "example.org"]>
                                      {[ "Accept" := VStrings ["a"; "b"] ]}))))
  = <["Host" := VString "example.org"]> {[ "Accept" := VStrings ["a"; "b"] ]}.
Proof.
  apply fold_after_unfold. intros k v Hk.
  apply lookup_insert_Some in Hk as [[_ <-]|[_ Hk]]; [exact I|].
  apply lookup_singleton_Some in Hk as [_ <-]. simpl. lia.
Defined.

Lemma MIME_header_round_trip_witness :
  ToMIMEHeader canonical_key
    (FromMIMEHeader None {[ "Content-Type" := ["image/png"] ]})
  = {[ "Content-Type" := ["image/png"] ]}.
Proof.
  apply MIME_header_round_trip. intros k v Hk.
  apply lookup_singleton_Some in Hk as [<- <-]. split; [discriminate|].
  vm_compute. reflexivity.
Defined.

(* ===================================================================== *)
(** ** File names and numbers *)
(* ===================================================================== *)

Section file_names.
Implicit Types (s t ds rest : string) (c : ascii).

Lemma string_app_cons c s t : String c s +:+ t = String c (s +:+ t).
Proof. reflexivity. Qed.

Lemma string_app_nil s : s +:+ "" = s.
Proof. induction s as [|c s IH]; [done|]. by rewrite string_app_cons, IH. Qed.


Lemma string_app_length s t :
  String.length (s +:+ t) = (String.length s + String.length t)%nat.
Proof.
  induction s as [|c s IH]; [done|].
  rewrite string_app_cons. cbn [String.length]. by rewrite IH.
Qed.

Lemma prefix_char a c s :
  String.prefix (String a "") (String c s) = bool_decide (a = c).
Proof.
  cbn [String.prefix]. destruct (ascii_dec a c) as [->|Hne].
  - rewrite bool_decide_eq_true_2 by done. by destruct s.
  - by rewrite bool_decide_eq_false_2.
Qed.

Lemma ReplaceAll_go_char fuel s a b :
  (String.length s < fuel)%nat →
  list_ascii_of_string (strings_ReplaceAll_go fuel s (String a "") (String b ""))
  = (λ c, if decide (c = a) then b else c) <$> list_ascii_of_string s.
Proof.
  revert fuel. induction s as [|c s IH]; intros fuel Hlen.
  - destruct fuel; [simpl in Hlen; lia|done].
  - destruct fuel as [|fuel]; [simpl in Hlen; lia|].
    cbn [strings_ReplaceAll_go]. rewrite prefix_char.
    cbn [String.length string_drop list_ascii_of_string fmap list_fmap].
    destruct (decide (c = a)) as [->|Hne].
    + rewrite bool_decide_eq_true_2 by done. rewrite string_app_cons.
      cbn [list_ascii_of_string]. change ("" +:+ ?x) with x.
      rewrite IH by (simpl in Hlen; lia). done.
    + rewrite bool_decide_eq_false_2 by congruence.
      cbn [list_ascii_of_string]. rewrite IH by (simpl in Hlen; lia). done.
Qed.

Lemma length_list_ascii s : length (list_ascii_of_string s) = String.length s.
Proof. induction s as [|c s IH]; [done|]. simpl. by rewrite IH. Qed.

Lemma ReplaceAll_char s a b :
  list_ascii_of_string (strings_ReplaceAll s (String a "") (String b ""))
  = (λ c, if decide (c = a) then b else c) <$> list_ascii_of_string s.
Proof. apply ReplaceAll_go_char. lia. Qed.

(** The path in the name of a record file: every slash, backslash and dot
    of the request path is an underscore, every other character is kept,
    so the length is kept and no path separator or dot is left. *)
Theorem sanitize_path_chars (path : string) :
  list_ascii_of_string (sanitize_path path)
  = sanitized_char <$> list_ascii_of_string path
  ∧ String.length (sanitize_path path) = String.length path
  ∧ Forall (λ c, c ≠ "/"%char ∧ c ≠ "\"%char ∧ c ≠ "."%char)
      (list_ascii_of_string (sanitize_path path)).
Proof.
  assert (list_ascii_of_string (sanitize_path path)
          = sanitized_char <$> list_ascii_of_string path) as Heq.
  { unfold sanitize_path. rewrite !ReplaceAll_char, <- !list_fmap_compose.
    apply list_fmap_ext. intros _ c _. unfold sanitized_char, compose.
    repeat case_decide; simplify_eq; done. }
  split; [done|]. split.
  - rewrite <- !length_list_ascii, Heq. apply length_fmap.
  - rewrite Heq. apply Forall_fmap, Forall_true. intros c. simpl.
    unfold sanitized_char. repeat case_decide; simplify_eq; done.
Qed.

Lemma digit_of_mod d :
  0 ≤ d ≤ 9 →
  is_digit (ascii_of_N (Z.to_N (48 + d))) = true
  ∧ digit_val (ascii_of_N (Z.to_N (48 + d))) = d.
Proof.
  intros Hd.
  assert (d = 0 ∨ d = 1 ∨ d = 2 ∨ d = 3 ∨ d = 4 ∨ d = 5 ∨ d = 6 ∨ d = 7 ∨ d = 8 ∨ d = 9)
    as Hcases by lia.
  repeat (destruct Hcases as [->|Hcases]; [by vm_compute|]). subst. by vm_compute.
Qed.

Lemma decimal_go_digits fuel n acc :
  0 ≤ n → digit_prefix acc = acc → digit_prefix (decimal_go fuel n acc) = decimal_go fuel n acc.
Proof.
  revert n acc. induction fuel as [|fuel IH]; intros n acc Hn Hacc; [done|].
  cbn [decimal_go].
  assert (digit_prefix (String (ascii_of_N (Z.to_N (48 + n `mod` 10))) acc)
          = String (ascii_of_N (Z.to_N (48 + n `mod` 10))) acc) as Hd.
  { cbn [digit_prefix].
    destruct (digit_of_mod (n `mod` 10)) as [-> _]; [|by rewrite Hacc].
    pose proof (Z.mod_pos_bound n 10). lia. }
  destruct (n <? 10); [done|]. apply IH; [|done].
  apply Z.div_pos; lia.
Qed.

Lemma decimal_go_value fuel n acc :
  0 ≤ n < 2 ^ Z.of_nat fuel →
  decimal_value (decimal_go fuel n acc) 0 = decimal_value acc n.
Proof.
  revert n acc. induction fuel as [|fuel IH]; intros n acc Hn.
  - simpl in Hn. by replace n with 0 by lia.
  - cbn [decimal_go].
    destruct (digit_of_mod (n `mod` 10)) as [_ Hval].
    { pose proof (Z.mod_pos_bound n 10). lia. }
    destruct (Z.ltb_spec n 10) as [Hsmall|Hbig].
    + cbn [decimal_value]. rewrite Hval, Z.mod_small by lia. f_equal.
    + rewrite IH.
      * cbn [decimal_value]. rewrite Hval. f_equal.
        pose proof (Z.div_mod n 10). lia.
      * rewrite Nat2Z.inj_succ, Z.pow_succ_r in Hn by lia.
        split; [apply Z.div_pos; lia|].
        apply Z.div_lt_upper_bound; lia.
Qed.

Lemma decimal_go_nonempty fuel n acc : decimal_go (S fuel) n acc ≠ "".
Proof.
  revert n acc. induction fuel as [|fuel IH]; intros n acc.
  - cbn [decimal_go]. by destruct (n <? 10).
  - change (decimal_go (S (S fuel)) n acc)
      with (let acc' := String (ascii_of_N (Z.to_N (48 + n `mod` 10))) acc in
            if n <? 10 then acc' else decimal_go (S fuel) (n / 10) acc').
    cbv zeta. destruct (n <? 10); [done|apply IH].
Qed.

Lemma decimal_spec n :
  0 ≤ n →
  digit_prefix (decimal n) = decimal n
  ∧ decimal_value (decimal n) 0 = n
  ∧ decimal n ≠ "".
Proof.
  intros Hn. unfold decimal. split; [|split].
  - by apply decimal_go_digits.
  - rewrite decimal_go_value; [done|].
    rewrite Nat2Z.inj_succ, Z2Nat.id by apply Z.log2_nonneg.
    destruct (decide (n = 0)) as [->|Hne]; [done|].
    pose proof (Z.log2_spec n ltac:(lia)). lia.
  - apply decimal_go_nonempty.
Qed.

Lemma zeros_app_spec k s :
  digit_prefix s = s →
  digit_prefix (zeros k +:+ s) = zeros k +:+ s
  ∧ decimal_value (zeros k +:+ s) 0 = decimal_value s 0.
Proof.
  intros Hs. induction k as [|k [IH1 IH2]]; [done|].
  cbn [zeros]. rewrite string_app_cons. cbn [digit_prefix decimal_value].
  change (is_digit "0") with true. cbv iota. rewrite IH1. split; [done|].
  change (10 * 0 + digit_val "0") with 0. done.
Qed.

Lemma fmt_04d_spec n :
  0 ≤ n →
  digit_prefix (fmt_04d n) = fmt_04d n
  ∧ decimal_value (fmt_04d n) 0 = n
  ∧ fmt_04d n ≠ "".
Proof.
  intros Hn. unfold fmt_04d. rewrite (proj2 (Z.ltb_ge _ _) Hn).
  destruct (decimal_spec n Hn) as (Hd & Hv & Hne).
  destruct (zeros_app_spec (4 - String.length (decimal n)) (decimal n) Hd) as [H1 H2].
  split; [done|]. split; [by rewrite H2|].
  destruct (zeros _); [done|]. by rewrite string_app_cons.
Qed.

Lemma digit_prefix_app ds c rest :
  digit_prefix ds = ds → is_digit c = false →
  digit_prefix (ds +:+ String c rest) = ds.
Proof.
  intros Hds Hc. induction ds as [|d ds IH].
  - change ("" +:+ ?x) with x. cbn [digit_prefix]. by rewrite Hc.
  - rewrite string_app_cons. cbn [digit_prefix] in *.
    destruct (is_digit d); [|done]. simplify_eq. rewrite IH by done. congruence.
Qed.

Lemma ReplaceAll_go_keeps_number fuel ds rest :
  digit_prefix ds = ds →
  (String.length ds < fuel)%nat →
  ∃ rest', strings_ReplaceAll_go fuel (ds +:+ String "_" rest) "__" "_"
           = ds +:+ String "_" rest'.
Proof.
  intros Hds. revert fuel. induction ds as [|d ds IH]; intros fuel Hlen.
  - destruct fuel as [|fuel]; [simpl in Hlen; lia|].
    change ("" +:+ ?x) with x. cbn [strings_ReplaceAll_go].
    destruct (String.prefix "__" (String "_" rest)); eauto.
  - destruct fuel as [|fuel]; [simpl in Hlen; lia|].
    rewrite string_app_cons. cbn [digit_prefix] in Hds.
    destruct (is_digit d) eqn:Hd; [|done]. simplify_eq.
    cbn [strings_ReplaceAll_go String.prefix].
    destruct (ascii_dec "_" d) as [<-|_]; [by vm_compute in Hd|].
    destruct (IH ltac:(congruence) fuel ltac:(simpl in Hlen; lia)) as [rest' ->].
    eauto.
Qed.

Lemma record_filename_number n stamp method path :
  0 ≤ n →
  ∃ rest, record_filename n stamp method path = fmt_04d n +:+ String "_" rest.
Proof.
  intros Hn. destruct (fmt_04d_spec n Hn) as (Hd & _ & _).
  unfold record_filename, strings_ReplaceAll.
  change ("_" +:+ ?x) with (String "_" x).
  apply ReplaceAll_go_keeps_number; [done|].
  rewrite string_app_length. lia.
Qed.

Lemma counted_record_entry n stamp method path :
  0 ≤ n < 2 ^ 63 →
  counted_value (record_entry n stamp method path) = Some n.
Proof.
  intros [Hn Hmax].
  destruct (fmt_04d_spec n Hn) as (Hd & Hv & Hne).
  destruct (record_filename_number n stamp method path Hn) as [rest Hname].
  unfold counted_value, record_entry. cbn [IsDir Name]. rewrite Hname.
  rewrite digit_prefix_app by done.
  rewrite decide_False by done.
  rewrite decide_False.
  - by rewrite Hv, (proj2 (Z.ltb_lt _ _) Hmax).
  - intros Heq. apply (f_equal String.length) in Heq.
    rewrite string_app_length in Heq. simpl in Heq. lia.
Qed.

(** The name the handler gives the record file of request [n] reads back
    as [n] in [maxFileNum], for every number that is not negative, whatever
    the time, the method and the path are. *)
Theorem record_file_counts_as_its_number (n : Z) (stamp method path : string) :
  0 ≤ n < 2 ^ 63 →
  counted_value (record_entry n stamp method path) = Some n
  ∧ ∀ maxInt, maxFileNum_entry maxInt (record_entry n stamp method path) = Z.max maxInt n.
Proof.
  intros Hn. pose proof (counted_record_entry n stamp method path Hn) as Hc.
  split; [done|]. intros maxInt. by rewrite maxFileNum_entry_counted, Hc.
Qed.

End file_names.

Lemma record_file_counts_as_its_number_witness :
  counted_value (record_entry 12345 "20240101_000000" "POST" "api_items") = Some 12345.
Proof.
  apply (record_file_counts_as_its_number 12345 "20240101_000000" "POST" "api_items").
  lia.
Defined.

(* ===================================================================== *)
(** ** The allocator across restarts, orders and read errors *)
(* ===================================================================== *)

Section allocator_more.
Implicit Types (entries : list DirEntry) (handled : list (Z * string * string * string)).

Lemma counted_log_entries handled :
  Forall (λ n, 0 ≤ n < 2 ^ 63) (log_numbers handled) →
  omap counted_value (log_entries handled) = log_numbers handled.
Proof.
  unfold log_entries, log_numbers.
  induction handled as [|[[[n stamp] method] path] handled IH]; [done|].
  rewrite !fmap_cons. intros [Hn Hrest]%Forall_cons. cbn [omap list_omap fst snd].
  rewrite counted_record_entry by done. f_equal. by apply IH.
Qed.

Lemma maxFileNum_healthy entries fuel dir :
  (length entries < fuel)%nat →
  maxFileNum (λ _, Ok (healthy_dir entries)) fuel dir = Some (Ok (counted_seed entries)).
Proof.
  intros Hfuel. unfold maxFileNum, healthy_dir.
  rewrite maxFileNum_loop_healthy by done. simpl. by rewrite fold_maxFileNum_entry.
Qed.

(** After a restart on a directory that holds the record files of the
    requests handled so far, numbered from 1 up to less than 2^31 - 1, the
    seed is the largest number handed out, so the next number is larger
    than every number in the directory. *)
Theorem restart_continues_after_the_largest_number handled fuel dir :
  Forall (λ n, 1 ≤ n < 2 ^ 31 - 1) (log_numbers handled) →
  (length handled < fuel)%nat →
  httpHandler_seed (λ _, Ok (healthy_dir (log_entries handled))) fuel 0 dir
  = Some (Ok (fold_left Z.max (log_numbers handled) 1))
  ∧ ∀ n, n ∈ log_numbers handled →
      n < atomic_AddInt32 (fold_left Z.max (log_numbers handled) 1) 1.
Proof.
  intros Hnums Hfuel.
  assert (counted_seed (log_entries handled) = fold_left Z.max (log_numbers handled) 1)
    as Hseed.
  { unfold counted_seed. rewrite counted_log_entries; [done|].
    eapply Forall_impl; [done|]. simpl. lia. }
  destruct (fold_left_max_spec (log_numbers handled) 1) as (Hlo & Hub & Hat).
  assert (1 ≤ fold_left Z.max (log_numbers handled) 1 < 2 ^ 31 - 1) as Hrange.
  { destruct Hat as [->|Hin]; [lia|].
    rewrite Forall_forall in Hnums. by apply Hnums. }
  split.
  - unfold httpHandler_seed. change (int32 0 <=? 0) with true. cbv iota.
    rewrite maxFileNum_healthy by (unfold log_entries; rewrite length_fmap; lia).
    rewrite Hseed, int32_id by lia. done.
  - intros n Hn. unfold atomic_AddInt32. rewrite int32_id by lia.
    specialize (Hub n Hn). lia.
Qed.

Lemma counted_seed_Permutation entries entries' :
  entries ≡ₚ entries' → counted_seed entries = counted_seed entries'.
Proof.
  intros Hperm.
  destruct (counted_seed_spec entries) as (Hlo & Hub & Hat).
  destruct (counted_seed_spec entries') as (Hlo' & Hub' & Hat').
  apply Z.le_antisymm.
  - destruct Hat as [->|(d & Hd & Hv)]; [done|].
    apply (Hub' d); [by rewrite <- Hperm|done].
  - destruct Hat' as [->|(d & Hd & Hv)]; [done|].
    apply (Hub d); [by rewrite Hperm|done].
Qed.

(** The seed does not depend on the order in which the directory lists its
    entries. *)
Theorem seed_ignores_listing_order entries entries' fuel fuel' dir :
  entries ≡ₚ entries' →
  (length entries < fuel)%nat → (length entries' < fuel')%nat →
  maxFileNum (λ _, Ok (healthy_dir entries)) fuel dir
  = maxFileNum (λ _, Ok (healthy_dir entries')) fuel' dir.
Proof.
  intros Hperm Hfuel Hfuel'.
  rewrite !maxFileNum_healthy by done.
  by rewrite (counted_seed_Permutation _ _ Hperm).
Qed.

Lemma maxFileNum_loop_transient (failing : nat → option error) K fuel l c m :
  (∀ k, (K ≤ k)%nat → failing k = None) →
  (∀ k, failing k ≠ Some EOF) →
  (length l + (K - c) < fuel)%nat →
  maxFileNum_loop fuel {| pending := l; calls := c; fault := failing |} m
  = Some (fold_left maxFileNum_entry l m).
Proof.
  intros Hlate Hnot. revert l c m.
  induction fuel as [|fuel IH]; intros l c m Hlen; [lia|].
  cbn [maxFileNum_loop]. unfold ReadDir. cbn [fault pending calls].
  destruct (failing c) as [e|] eqn:Hc.
  - assert (c < K)%nat as HcK.
    { destruct (decide (c < K)%nat); [done|]. rewrite Hlate in Hc by lia. done. }
    destruct e as [| |msg]; [by destruct (Hnot c)| |];
      cbn [fold_left]; apply IH; lia.
  - destruct l as [|d l]; [done|].
    rewrite IH.
    + by rewrite <- fold_left_app, take_drop.
    + rewrite length_drop. simpl in *. lia.
Qed.

(** Read errors other than end-of-stream that stop after finitely many
    calls are passed over: the scan returns, with enough fuel, the seed of
    the same directory read without a failure, and the errors are not
    reported. *)
Theorem passing_read_errors_are_ignored (failing : nat → option error)
    (K : nat) entries fuel dir :
  (∀ k, (K ≤ k)%nat → failing k = None) →
  (∀ k, failing k ≠ Some EOF) →
  (length entries + K < fuel)%nat →
  maxFileNum (λ _, Ok {| pending := entries; calls := 0; fault := failing |}) fuel dir
  = Some (Ok (counted_seed entries)).
Proof.
  intros Hlate Hnot Hfuel. unfold maxFileNum.
  rewrite (maxFileNum_loop_transient failing K) by (done || lia).
  simpl. by rewrite fold_maxFileNum_entry.
Qed.

Lemma int32_succ x : int32 (int32 x + 1) = int32 (x + 1).
Proof.
  unfold int32. f_equal.
  replace ((x + 2 ^ 31) `mod` 2 ^ 32 - 2 ^ 31 + 1 + 2 ^ 31)
    with ((x + 2 ^ 31) `mod` 2 ^ 32 + 1) by lia.
  rewrite Z.add_mod_idemp_l by lia. f_equal. lia.
Qed.

Lemma allocations_int32 k num : allocations (S k) num = int32 (num + Z.of_nat (S k)).
Proof.
  induction k as [|k IH].
  - simpl. unfold atomic_AddInt32. done.
  - change (allocations (S (S k)) num) with (atomic_AddInt32 (allocations (S k) num) 1).
    rewrite IH. unfold atomic_AddInt32. rewrite int32_succ. f_equal. lia.
Qed.

Lemma int32_inj a b : int32 a = int32 b → 0 ≤ b - a < 2 ^ 32 → a = b.
Proof.
  unfold int32. intros Heq Hdiff.
  pose proof (Z.div_mod (a + 2 ^ 31) (2 ^ 32) ltac:(lia)).
  pose proof (Z.div_mod (b + 2 ^ 31) (2 ^ 32) ltac:(lia)).
  assert ((a + 2 ^ 31) `mod` 2 ^ 32 = (b + 2 ^ 31) `mod` 2 ^ 32) as Hmod by lia.
  lia.
Qed.

(** The numbers of successive requests: the [k]-th request after the seed
    gets the seed plus [k], wrapped to 32 bits; any two of fewer than 2^32
    successive requests get different numbers, and the numbers grow by one
    as long as they stay below 2^31. *)
Theorem allocations_are_distinct (num : Z) (i j : nat) :
  (i < j)%nat → Z.of_nat j - Z.of_nat i < 2 ^ 32 →
  allocations (S i) num ≠ allocations (S j) num
  ∧ (- 2 ^ 31 ≤ num → num + Z.of_nat (S j) < 2 ^ 31 →
     allocations (S i) num = num + Z.of_nat (S i)
     ∧ allocations (S j) num = num + Z.of_nat (S j)).
Proof.
  intros Hij Hclose. rewrite !allocations_int32. split.
  - intros Heq. apply int32_inj in Heq; lia.
  - intros Hlo Hhi. rewrite !int32_id by lia. done.
Qed.

End allocator_more.

Lemma restart_continues_after_the_largest_number_witness :
  httpHandler_seed
    (λ _, Ok (healthy_dir (log_entries [ (7, "20240101_000000", "POST", "a");
                                         (3, "20240101_000001", "GET", "b_c") ])))
    3 0 "records"
  = Some (Ok (fold_left Z.max (log_numbers [ (7, "20240101_000000", "POST", "a");
                                             (3, "20240101_000001", "GET", "b_c") ]) 1)).
Proof.
  apply (restart_continues_after_the_largest_number
           [ (7, "20240101_000000", "POST", "a"); (3, "20240101_000001", "GET", "b_c") ]).
  - repeat constructor; simpl; lia.
  - simpl. lia.
Defined.

Lemma seed_ignores_listing_order_witness :
  maxFileNum (λ _, Ok (healthy_dir [ {| Name := "0003_a.json"; IsDir := false |};
                                     {| Name := "0007_b.json"; IsDir := false |} ]))
    3 "records"
  = maxFileNum (λ _, Ok (healthy_dir [ {| Name := "0007_b.json"; IsDir := false |};
                                       {| Name := "0003_a.json"; IsDir := false |} ]))
      3 "records".
Proof.
  apply seed_ignores_listing_order.
  - apply Permutation_swap.
  - simpl. lia.
  - simpl. lia.
Defined.

Lemma passing_read_errors_are_ignored_witness :
  maxFileNum
    (λ _, Ok {| pending := [ {| Name := "0007_b.json"; IsDir := false |} ];
                calls := 0;
                fault := λ k, if decide (k < 2)%nat
                              then Some (ErrOther "input/output error") else None |})
    4 "records"
  = Some (Ok (counted_seed [ {| Name := "0007_b.json"; IsDir := false |} ])).
Proof.
  apply (passing_read_errors_are_ignored _ 2).
  - intros k Hk. by rewrite decide_False by lia.
  - intros k. by destruct (decide (k < 2)%nat).
  - simpl. lia.
Defined.

Lemma allocations_are_distinct_witness :
  allocations 1 2147483646 ≠ allocations 3 2147483646.
Proof.
  apply (allocations_are_distinct 2147483646 0 2); [lia|lia].
Defined.

(* ===================================================================== *)
(** ** More on saveBody *)
(* ===================================================================== *)

Section saveBody_more.
Context `{Unicode, Mime, Json}.
Implicit Types (r : reader) (s : fs).

Lemma bind_Err {A B} (m : M A) (k : A → M B) s e s' :
  m s = (Err e, s') → bind m k s = (Err e, s').
Proof. intros Hm. unfold bind. by rewrite Hm. Qed.

(** The spool path step by step, for a stream that ends cleanly or with an
    error, on a disk with room. *)
Lemma saveFile_run buffer r contentType hint s ext0 exts :
  mime_ExtensionsByType contentType = ext0 :: exts →
  spool_name hint ext0 ∉ denied s →
  Z.of_nat (length buffer) + Z.of_nat (length (rd_data r)) ≤ free s →
  ∃ s',
    saveBody_saveFile buffer r contentType hint s
      = (match rd_end r with
         | EOF => Ok ("", spool_name hint ext0)
         | e => Err e
         end, s')
    ∧ files s' = <[spool_name hint ext0 := (buffer ++ rd_data r)%list]> (files s)
    ∧ denied s' = denied s
    ∧ free s' = free s - (Z.of_nat (length buffer) + Z.of_nat (length (rd_data r))).
Proof.
  intros Hext Hden Hfree.
  set (name := spool_name hint ext0) in *.
  unfold saveBody_saveFile. rewrite Hext.
  assert ((0 <=? Z.of_nat (length (ext0 :: exts))) = true) as ->
    by (apply Z.leb_le; lia).
  cbn [lookup list_lookup]. fold (spool_name hint ext0). fold name.
  rewrite (bind_Ok _ _ s name s) by done.
  rewrite (bind_Ok _ _ _ _ _ (os_Create_ok name s Hden)).
  set (s1 := {| files := <[name := []]> (files s) |}).
  assert (∃ s2, (if 0 <? Z.of_nat (length buffer)
                 then file_Write name buffer else ret ()) s1 = (Ok (), s2)
                ∧ files s2 = <[name := buffer]> (files s)
                ∧ denied s2 = denied s
                ∧ free s2 = free s - Z.of_nat (length buffer))
    as (s2 & Hw & Hf2 & Hd2 & Hfr2).
  { destruct (0 <? Z.of_nat (length buffer)) eqn:Hlen.
    - rewrite file_Write_ok by (subst s1; simpl; lia).
      eexists. split; [done|]. subst s1. cbn [files denied free].
      rewrite lookup_insert_eq, insert_insert_eq. done.
    - apply Z.ltb_ge in Hlen. destruct buffer; [|simpl in Hlen; lia].
      exists s1. subst s1. cbn [files denied free length].
      repeat split; first [done|lia]. }
  rewrite (bind_Ok _ _ _ _ _ Hw).
  assert (file_Write name (rd_data r) s2
          = (Ok (), {| files := <[name := (buffer ++ rd_data r)%list]> (files s);
                       denied := denied s;
                       free := free s - (Z.of_nat (length buffer)
                                         + Z.of_nat (length (rd_data r))) |})) as Hcopy.
  { rewrite file_Write_ok by lia. rewrite Hf2, Hd2, Hfr2.
    rewrite lookup_insert_eq, insert_insert_eq. simpl. f_equal. f_equal. lia. }
  exists {| files := <[name := (buffer ++ rd_data r)%list]> (files s);
            denied := denied s;
            free := free s - (Z.of_nat (length buffer) + Z.of_nat (length (rd_data r))) |}.
  split; [|done].
  unfold bind at 1. unfold io_Copy. rewrite (bind_Ok _ _ _ _ _ Hcopy).
  unfold ret, fail. by destruct (rd_end r).
Qed.

Lemma saveFile_denied buffer r contentType hint s ext0 exts :
  mime_ExtensionsByType contentType = ext0 :: exts →
  spool_name hint ext0 ∈ denied s →
  saveBody_saveFile buffer r contentType hint s
  = (Err (ErrOther ("open " +:+ spool_name hint ext0)), s).
Proof.
  intros Hext Hden. unfold saveBody_saveFile. rewrite Hext.
  assert ((0 <=? Z.of_nat (length (ext0 :: exts))) = true) as ->
    by (apply Z.leb_le; lia).
  cbn [lookup list_lookup]. fold (spool_name hint ext0).
  rewrite (bind_Ok _ _ s (spool_name hint ext0) s) by done.
  apply bind_Err. unfold os_Create. by rewrite decide_True.
Qed.

Lemma saveBody_spooled_whole r contentType hint s ext0 exts :
  takes_spool_path r →
  rd_end r = EOF →
  mime_ExtensionsByType contentType = ext0 :: exts →
  spool_name hint ext0 ∉ denied s →
  Z.of_nat (length (rd_data r)) ≤ free s →
  saveBody r contentType hint s
  = (Ok ("", spool_name hint ext0),
     {| files := <[spool_name hint ext0 := rd_data r]> (files s);
        denied := denied s;
        free := free s - Z.of_nat (length (rd_data r)) |}).
Proof.
  intros Hspool Hend Hext Hden Hfree.
  destruct (saveBody_spool r contentType hint s Hspool)
    as (buffer & rest & Hdata & Hrest & ->).
  assert (Z.of_nat (length buffer) + Z.of_nat (length (rd_data rest))
          = Z.of_nat (length (rd_data r))) as Hlen.
  { rewrite Hdata, length_app. lia. }
  destruct (saveFile_run buffer rest contentType hint s ext0 exts Hext Hden)
    as (s' & -> & Hfiles & Hdenied & Hfree'); [lia|].
  rewrite Hrest, Hend. f_equal. destruct s' as [f d fr].
  simpl in Hfiles, Hdenied, Hfree'. rewrite Hfiles, Hdenied, Hfree', Hlen, <- Hdata.
  done.
Qed.

(** Spooling loses nothing: a stream that takes the spool path and ends
    cleanly, binary ones shorter than the window included, is written
    whole to the file the result names; what a file of that name held
    before is gone, and no other file is touched. *)
Theorem spooled_file_holds_the_stream r contentType hint s ext0 exts :
  takes_spool_path r →
  rd_end r = EOF →
  mime_ExtensionsByType contentType = ext0 :: exts →
  spool_name hint ext0 ∉ denied s →
  Z.of_nat (length (rd_data r)) ≤ free s →
  ∃ s',
    saveBody r contentType hint s = (Ok ("", spool_name hint ext0), s')
    ∧ files s' !! spool_name hint ext0 = Some (rd_data r)
    ∧ (∀ other, other ≠ spool_name hint ext0 → files s' !! other = files s !! other)
    ∧ free s' = free s - Z.of_nat (length (rd_data r)).
Proof.
  intros Hspool Hend Hext Hden Hfree.
  rewrite (saveBody_spooled_whole r contentType hint s ext0 exts) by done.
  eexists. split; [done|]. cbn [files free]. split; [apply lookup_insert_eq|].
  split; [|done]. intros other Hother. by rewrite lookup_insert_ne.
Qed.

(** The errors of [saveBody]. A stream that fails before the window is
    filled gives its error and leaves the disk alone. A file that cannot
    be created gives the error of the creation and leaves the disk alone.
    A stream that fails after the window was filled gives its error after
    the bytes read so far were written: the file stays, with these
    bytes. *)
Theorem saveBody_errors r contentType hint s msg :
  rd_end r = ErrOther msg →
  (Z.of_nat (length (rd_data r)) < peek_window →
   saveBody r contentType hint s = (Err (ErrOther msg), s))
  ∧ (∀ ext0 exts,
       peek_window ≤ Z.of_nat (length (rd_data r)) →
       mime_ExtensionsByType contentType = ext0 :: exts →
       spool_name hint ext0 ∈ denied s →
       saveBody r contentType hint s
       = (Err (ErrOther ("open " +:+ spool_name hint ext0)), s))
  ∧ (∀ ext0 exts,
       peek_window ≤ Z.of_nat (length (rd_data r)) →
       mime_ExtensionsByType contentType = ext0 :: exts →
       spool_name hint ext0 ∉ denied s →
       Z.of_nat (length (rd_data r)) ≤ free s →
       ∃ s', saveBody r contentType hint s = (Err (ErrOther msg), s')
             ∧ files s' !! spool_name hint ext0 = Some (rd_data r)).
Proof.
  intros Hend. split; [|split].
  - intros Hlen. unfold saveBody. rewrite io_ReadFull_short by done.
    rewrite Hend. by destruct (rd_data r).
  - intros ext0 exts Hlen Hext Hden.
    destruct (saveBody_spool r contentType hint s (or_introl Hlen))
      as (buffer & rest & _ & _ & ->).
    by eapply saveFile_denied.
  - intros ext0 exts Hlen Hext Hden Hfree.
    destruct (saveBody_spool r contentType hint s (or_introl Hlen))
      as (buffer & rest & Hdata & Hrest & ->).
    destruct (saveFile_run buffer rest contentType hint s ext0 exts Hext Hden)
      as (s' & -> & Hfiles & _).
    { rewrite Hdata, length_app in Hfree. lia. }
    exists s'. rewrite Hrest, Hend. split; [done|].
    by rewrite Hfiles, lookup_insert_eq, Hdata.
Qed.

(** [saveBody] never returns a body and a file name together. *)
Lemma saveBody_one_of_two r contentType hint s body file s' :
  saveBody r contentType hint s = (Ok (body, file), s') → body = "" ∨ file = "".
Proof.
  intros [(_ & -> & _)|(-> & _)]%saveBody_Ok_inv; [by right|by left].
Qed.

(** The record the handler builds has at most one of its four body fields
    set: a request part that starts with the four fields empty comes back
    from the classification with one way of body at most. *)
Theorem captured_body_fields_exclude_each_other (r : HttpRequest) (body : reader)
    (filename : string) (request request' : RequestResponse) (s s' : fs) :
  Body request = "" → BodyFile request = "" →
  BodyJson request = None → BodyMultiPart request = None →
  capture_body r body filename request s = (Ok request', s') →
  (Body request' ≠ "" →
   BodyFile request' = "" ∧ BodyJson request' = None ∧ BodyMultiPart request' = None)
  ∧ (BodyFile request' ≠ "" →
     Body request' = "" ∧ BodyJson request' = None ∧ BodyMultiPart request' = None)
  ∧ (BodyJson request' ≠ None →
     Body request' = "" ∧ BodyFile request' = "" ∧ BodyMultiPart request' = None)
  ∧ (BodyMultiPart request' ≠ None →
     Body request' = "" ∧ BodyFile request' = "" ∧ BodyJson request' = None).
Proof.
  intros Hb Hf Hj Hm. unfold capture_body.
  destruct (isContentMultiPart _).
  - unfold bind, or_Fatalf, log_Fatalf.
    destruct (readMultiPart _ _ _ s) as [[parts| | |] s1]; try done.
    intros [= <- <-]. simpl. rewrite Hb, Hf, Hj. naive_solver.
  - destruct (isContentJson _).
    + unfold bind, or_Fatalf, log_Fatalf.
      destruct (readJson body) as [data| | |]; try done.
      intros [= <- <-]. simpl. rewrite Hb, Hf, Hm. naive_solver.
    + unfold bind at 1. unfold or_Fatalf, log_Fatalf.
      destruct (saveBody _ _ _ s) as [[[text file]| | |] s1] eqn:Hsave; try done.
      intros [= <- <-]. simpl. rewrite Hj, Hm.
      apply saveBody_one_of_two in Hsave as [->| ->]; naive_solver.
Qed.

End saveBody_more.

Lemma spooled_file_holds_the_stream_witness :
  ∃ s',
    saveBody (stream [x89; x50; x4e; x47]) "image/png" "0008_x-body.dat" roomy_disk
    = (Ok ("", spool_name "0008_x-body.dat" ".png"), s')
    ∧ files s' !! spool_name "0008_x-body.dat" ".png" = Some [x89; x50; x4e; x47]
    ∧ (∀ other, other ≠ spool_name "0008_x-body.dat" ".png" →
         files s' !! other = files roomy_disk !! other)
    ∧ free s' = free roomy_disk - Z.of_nat (length [x89; x50; x4e; x47]).
Proof.
  apply (spooled_file_holds_the_stream (stream [x89; x50; x4e; x47]) "image/png"
           "0008_x-body.dat" roomy_disk ".png" []).
  - right. split; [|split; [|split]].
    + vm_compute. reflexivity.
    + discriminate.
    + left. reflexivity.
    + vm_compute. reflexivity.
  - reflexivity.
  - reflexivity.
  - cbn [denied roomy_disk]. apply not_elem_of_empty.
  - vm_compute. discriminate.
Defined.

Lemma saveBody_errors_witness :
  saveBody {| rd_data := list_byte_of_string "abc"; rd_end := ErrOther "connection reset" |}
    "text/html" "0008_x-body.dat" roomy_disk
  = (Err (ErrOther "connection reset"), roomy_disk).
Proof.
  apply (saveBody_errors _ "text/html" "0008_x-body.dat" roomy_disk "connection reset").
  - reflexivity.
  - vm_compute. reflexivity.
Defined.

Lemma captured_body_fields_exclude_each_other_witness :
  BodyFile (set_body blank_request "hello world" "") = ""
  ∧ BodyJson (set_body blank_request "hello world" "") = None
  ∧ BodyMultiPart (set_body blank_request "hello world" "") = None.
Proof.
  assert (capture_body
            (post "/notes" "text/html" (stream (list_byte_of_string "hello world")))
            (stream (list_byte_of_string "hello world"))
            "0002_20240101_000000_POST_notes.json" blank_request roomy_disk
          = (Ok (set_body blank_request "hello world" ""), roomy_disk)) as Hcapture.
  { vm_compute. reflexivity. }
  destruct (captured_body_fields_exclude_each_other
              (post "/notes" "text/html" (stream (list_byte_of_string "hello world")))
              (stream (list_byte_of_string "hello world"))
              "0002_20240101_000000_POST_notes.json" blank_request
              (set_body blank_request "hello world" "") roomy_disk roomy_disk
              eq_refl eq_refl eq_refl eq_refl Hcapture) as [Hbody _].
  apply Hbody. discriminate.
Defined.

(* ===================================================================== *)
(** ** The names of spooled files *)
(* ===================================================================== *)

Section spool_names.
Implicit Types (s t p : string).




Lemma substring_app s t : String.substring 0 (String.length s) (s +:+ t) = s.
Proof.
  induction s as [|c s IH]; [by destruct t|].
  rewrite string_app_cons. cbn [String.length String.substring]. by rewrite IH.
Qed.






End spool_names.

Section multipart_more.
Context `{Unicode, Mime, Json}.

Lemma unfold_loop_step p rest final jsonFilename n acc :
  readMultiPart_loop (p :: rest) final jsonFilename n acc
  = (if isContentJson (wire_Get (part_Header p) "Content-Type") then
       match readJson (part_body p) with
       | Ok data =>
           readMultiPart_loop rest final jsonFilename n
             (acc ++ [ {| mp_Header := FromMIMEHeader None (part_Header p); Content := "";
                          ContentFile := ""; ContentJson := Some data |} ])%list
       | Err e => fail (ErrOther "failed to parse json")
       | Panic msg => λ s, (Panic msg, s)
       | Exit c => λ s, (Exit c, s)
       end
     else
       if negb (bool_decide (part_FileName p = "")) then
         saved <~ saveBody (part_body p) (wire_Get (part_Header p) "Content-Type")
                    (strings_TrimSuffix jsonFilename ".json" +:+ "-" +:+ part_FileName p);
         readMultiPart_loop rest final jsonFilename n
           (acc ++ [ {| mp_Header := FromMIMEHeader None (part_Header p);
                        Content := saved.1; ContentFile := saved.2;
                        ContentJson := None |} ])%list
       else
         saved <~ saveBody (part_body p) (wire_Get (part_Header p) "Content-Type")
                    (strings_TrimSuffix jsonFilename ".json" +:+ "-multipart_"
                       +:+ fmt_d n +:+ ".dat");
         readMultiPart_loop rest final jsonFilename (n + 1)
           (acc ++ [ {| mp_Header := FromMIMEHeader None (part_Header p);
                        Content := saved.1; ContentFile := saved.2;
                        ContentJson := None |} ])%list).
Proof.
  cbn [readMultiPart_loop].
  destruct (isContentJson _); [done|]. by destruct (negb _).
Qed.

(** Two parts that carry the same file name and the same content type are
    spooled to the same file: both records name it, and it holds the bytes
    of the second part only. *)
Theorem parts_with_one_file_name_share_a_file (r : HttpRequest) (body : reader)
    (p1 p2 : Part) (contentType jsonFilename : string) (s : fs) (ext0 : string)
    (exts : list string) :
  req_Body r = Some body →
  req_MultipartReader r = Ok {| mr_parts := [p1; p2]; mr_end := EOF |} →
  part_FileName p1 ≠ "" → part_FileName p2 = part_FileName p1 →
  wire_Get (part_Header p2) "Content-Type" = wire_Get (part_Header p1) "Content-Type" →
  isContentJson (wire_Get (part_Header p1) "Content-Type") = false →
  mime_ExtensionsByType (wire_Get (part_Header p1) "Content-Type") = ext0 :: exts →
  takes_spool_path (part_body p1) → rd_end (part_body p1) = EOF →
  takes_spool_path (part_body p2) → rd_end (part_body p2) = EOF →
  spool_name (strings_TrimSuffix jsonFilename ".json" +:+ "-" +:+ part_FileName p1) ext0
    ∉ denied s →
  Z.of_nat (length (rd_data (part_body p1))) + Z.of_nat (length (rd_data (part_body p2)))
    ≤ free s →
  ∃ m1 m2 s',
    readMultiPart r contentType jsonFilename s = (Ok [m1; m2], s')
    ∧ ContentFile m1
      = spool_name (strings_TrimSuffix jsonFilename ".json" +:+ "-" +:+ part_FileName p1) ext0
    ∧ ContentFile m2 = ContentFile m1
    ∧ files s' !! ContentFile m1 = Some (rd_data (part_body p2)).
Proof.
  intros Hbody Hmr Hname1 Hname2 Hct Hjson Hext Hsp1 Hend1 Hsp2 Hend2 Hden Hfree.
  set (name := spool_name _ ext0) in *.
  unfold readMultiPart. rewrite Hbody, Hmr. cbn [mr_parts mr_end].
  set (s1 := {| files := <[name := rd_data (part_body p1)]> (files s);
                denied := denied s;
                free := free s - Z.of_nat (length (rd_data (part_body p1))) |}).
  assert (saveBody (part_body p1) (wire_Get (part_Header p1) "Content-Type")
            (strings_TrimSuffix jsonFilename ".json" +:+ "-" +:+ part_FileName p1) s
          = (Ok ("", name), s1)) as Hsave1.
  { apply (saveBody_spooled_whole _ _ _ s ext0 exts); try done. lia. }
  assert (saveBody (part_body p2) (wire_Get (part_Header p1) "Content-Type")
            (strings_TrimSuffix jsonFilename ".json" +:+ "-" +:+ part_FileName p1) s1
          = (Ok ("", name),
             {| files := <[name := rd_data (part_body p2)]> (files s1);
                denied := denied s1;
                free := free s1 - Z.of_nat (length (rd_data (part_body p2))) |}))
    as Hsave2.
  { apply (saveBody_spooled_whole _ _ _ s1 ext0 exts); try done.
    subst s1. cbn [free]. lia. }
  rewrite (unfold_loop_step p1), Hjson, (bool_decide_eq_false_2 _ Hname1). cbn [negb].
  rewrite (bind_Ok _ _ _ _ _ Hsave1). cbn [fst snd].
  rewrite (unfold_loop_step p2), Hct, Hjson, Hname2, (bool_decide_eq_false_2 _ Hname1).
  cbn [negb]. rewrite (bind_Ok _ _ _ _ _ Hsave2). cbn [fst snd readMultiPart_loop].
  unfold ret. cbn [app].
  eexists _, _, _. split; [done|]. cbn [ContentFile files].
  split; [done|]. split; [done|]. apply lookup_insert_eq.
Qed.

End multipart_more.

Lemma parts_with_one_file_name_share_a_file_witness :
  ∃ m1 m2 s',
    readMultiPart
      (form_post "/upload"
         [ {| part_Header := {[ "Content-Type" := ["image/png"] ]};
              part_FileName := "a.png"; part_body := stream [x89; x01] |};
           {| part_Header := {[ "Content-Type" := ["image/png"] ]};
              part_FileName := "a.png"; part_body := stream [x89; x02] |} ])
      "multipart/form-data; boundary=xyz" "0008_x.json" roomy_disk
    = (Ok [m1; m2], s')
    ∧ ContentFile m1
      = spool_name (strings_TrimSuffix "0008_x.json" ".json" +:+ "-" +:+ "a.png") ".png"
    ∧ ContentFile m2 = ContentFile m1
    ∧ files s' !! ContentFile m1 = Some [x89; x02].
Proof.
  apply (parts_with_one_file_name_share_a_file
           (form_post "/upload"
              [ {| part_Header := {[ "Content-Type" := ["image/png"] ]};
                   part_FileName := "a.png"; part_body := stream [x89; x01] |};
                {| part_Header := {[ "Content-Type" := ["image/png"] ]};
                   part_FileName := "a.png"; part_body := stream [x89; x02] |} ])
           (stream [])
           {| part_Header := {[ "Content-Type" := ["image/png"] ]};
              part_FileName := "a.png"; part_body := stream [x89; x01] |}
           {| part_Header := {[ "Content-Type" := ["image/png"] ]};
              part_FileName := "a.png"; part_body := stream [x89; x02] |}
           "multipart/form-data; boundary=xyz" "0008_x.json" roomy_disk ".png" []);
    try reflexivity.
  - discriminate.
  - right. split; [vm_compute; reflexivity|].
    split; [discriminate|]. split; [by left|]. vm_compute. reflexivity.
  - right. split; [vm_compute; reflexivity|].
    split; [discriminate|]. split; [by left|]. vm_compute. reflexivity.
  - cbn [denied roomy_disk]. apply not_elem_of_empty.
  - vm_compute. discriminate.
Defined.

(* ===================================================================== *)
(** ** More on the handler *)
(* ===================================================================== *)

Section handler_more.
Context `{Unicode, Mime, Json, JsonEncoder}.

Lemma saveRecord_ok dir filename record s :
  filepath_Join dir filename ∉ denied s →
  Z.of_nat (length (json_Encode record)) ≤ free s →
  saveRecord dir filename record s
  = (Ok (), {| files := <[filepath_Join dir filename := json_Encode record]> (files s);
               denied := denied s;
               free := free s - Z.of_nat (length (json_Encode record)) |}).
Proof.
  intros Hden Hfree. unfold saveRecord.
  rewrite (bind_Ok _ _ _ _ _ (os_Create_ok _ s Hden)).
  rewrite file_Write_ok by done. cbn [files denied free].
  by rewrite lookup_insert_eq, insert_insert_eq.
Qed.

Lemma saveRecord_denied dir filename record s :
  filepath_Join dir filename ∈ denied s →
  saveRecord dir filename record s
  = (Err (ErrOther ("open " +:+ filepath_Join dir filename)), s).
Proof.
  intros Hden. unfold saveRecord, bind, os_Create. by rewrite decide_True.
Qed.

Lemma handler_after_classification (saveDir : string)
    (responser : HttpRequest → HttpResponse) (stamp rfc3339 : string)
    (r : HttpRequest) (srv : server) (c : ascii) (path : string)
    (request' : RequestResponse) (s1 : fs) :
  req_Path r = String c path →
  match req_Body r with
  | Some body =>
      capture_body r body
        (record_filename (atomic_AddInt32 (num srv) 1) stamp (req_Method r)
           (sanitize_path path))
        (first_record_part r)
  | None => ret (first_record_part r)
  end (disk srv) = (Ok request', s1) →
  handler saveDir responser stamp rfc3339 r srv
  = (let '(out, disk') :=
       (_ <~ or_Fatalf
               (saveRecord saveDir
                  (record_filename (atomic_AddInt32 (num srv) 1) stamp (req_Method r)
                     (sanitize_path path))
                  (record_of r rfc3339 request'));
        ret (responser r)) s1 in
     (out, {| num := atomic_AddInt32 (num srv) 1; disk := disk' |})).
Proof.
  intros Hpath Hclass. unfold handler. rewrite Hpath.
  fold (first_record_part r).
  by rewrite (bind_Ok _ _ _ _ _ Hclass).
Qed.

(** A request whose body is classified without error and whose record file
    can be written: the handler writes the encoded record under the save
    directory, in the file named after the new number, touches no other
    file after the classification, advances the counter by one and answers
    with the response of the strategy. *)
Theorem handler_saves_and_responds (saveDir : string)
    (responser : HttpRequest → HttpResponse) (stamp rfc3339 : string)
    (r : HttpRequest) (srv : server) (c : ascii) (path : string)
    (request' : RequestResponse) (s1 : fs) :
  req_Path r = String c path →
  match req_Body r with
  | Some body =>
      capture_body r body
        (record_filename (atomic_AddInt32 (num srv) 1) stamp (req_Method r)
           (sanitize_path path))
        (first_record_part r)
  | None => ret (first_record_part r)
  end (disk srv) = (Ok request', s1) →
  filepath_Join saveDir
    (record_filename (atomic_AddInt32 (num srv) 1) stamp (req_Method r)
       (sanitize_path path)) ∉ denied s1 →
  Z.of_nat (length (json_Encode (record_of r rfc3339 request'))) ≤ free s1 →
  handler saveDir responser stamp rfc3339 r srv
  = (Ok (responser r),
     {| num := atomic_AddInt32 (num srv) 1;
        disk :=
          {| files :=
               <[filepath_Join saveDir
                   (record_filename (atomic_AddInt32 (num srv) 1) stamp (req_Method r)
                      (sanitize_path path))
                 := json_Encode (record_of r rfc3339 request')]> (files s1);
             denied := denied s1;
             free := free s1
                     - Z.of_nat (length (json_Encode (record_of r rfc3339 request'))) |} |}).
Proof.
  intros Hpath Hclass Hden Hfree.
  rewrite (handler_after_classification _ _ _ _ _ _ c path request' s1 Hpath Hclass).
  rewrite (bind_Ok _ _ _ _ _ (or_Fatalf_Ok _ _ _ _ (saveRecord_ok _ _ _ s1 Hden Hfree))).
  done.
Qed.

(** When the record file cannot be created the handler ends in
    [log.Fatalf] as well: the process exits with status 1 after the body
    was classified, and what the classification spooled stays on the
    disk without a record. *)
Theorem unwritable_record_exits (saveDir : string)
    (responser : HttpRequest → HttpResponse) (stamp rfc3339 : string)
    (r : HttpRequest) (srv : server) (c : ascii) (path : string)
    (request' : RequestResponse) (s1 : fs) :
  req_Path r = String c path →
  match req_Body r with
  | Some body =>
      capture_body r body
        (record_filename (atomic_AddInt32 (num srv) 1) stamp (req_Method r)
           (sanitize_path path))
        (first_record_part r)
  | None => ret (first_record_part r)
  end (disk srv) = (Ok request', s1) →
  filepath_Join saveDir
    (record_filename (atomic_AddInt32 (num srv) 1) stamp (req_Method r)
       (sanitize_path path)) ∈ denied s1 →
  handler saveDir responser stamp rfc3339 r srv
  = (Exit 1, {| num := atomic_AddInt32 (num srv) 1; disk := s1 |}).
Proof.
  intros Hpath Hclass Hden.
  rewrite (handler_after_classification _ _ _ _ _ _ c path request' s1 Hpath Hclass).
  rewrite (bind_Exit _ _ _ _ _ (or_Fatalf_Err _ _ _ _ (saveRecord_denied _ _ _ s1 Hden))).
  done.
Qed.

End handler_more.

Section stored_header.
Implicit Types (r : HttpRequest) (k : string).



End stored_header.

Lemma handler_saves_and_responds_witness :
  handler "records" respond_ok "20240101_000000" "2024-01-01T00:00:00Z" notes_request
    {| num := 7; disk := roomy_disk |}
  = (Ok (respond_ok notes_request),
     {| num := atomic_AddInt32 7 1;
        disk :=
          {| files :=
               <[filepath_Join "records"
                   (record_filename (atomic_AddInt32 7 1) "20240101_000000"
                      (req_Method notes_request) (sanitize_path "notes"))
                 := json_Encode
                      (record_of notes_request "2024-01-01T00:00:00Z"
                         (set_body (first_record_part notes_request) "hello world" ""))]>
                 (files roomy_disk);
             denied := denied roomy_disk;
             free := free roomy_disk
                     - Z.of_nat
                         (length
                            (json_Encode
                               (record_of notes_request "2024-01-01T00:00:00Z"
                                  (set_body (first_record_part notes_request)
                                     "hello world" "")))) |} |}).
Proof.
  apply (handler_saves_and_responds "records" respond_ok "20240101_000000"
           "2024-01-01T00:00:00Z" notes_request {| num := 7; disk := roomy_disk |}
           "/"%char "notes"
           (set_body (first_record_part notes_request) "hello world" "") roomy_disk).
  - reflexivity.
  - vm_compute. reflexivity.
  - cbn [denied roomy_disk]. apply not_elem_of_empty.
  - vm_compute. discriminate.
Defined.

Lemma unwritable_record_exits_witness :
  handler "records" respond_ok "20240101_000000" "2024-01-01T00:00:00Z" notes_request
    {| num := 7; disk := locked_disk |}
  = (Exit 1, {| num := atomic_AddInt32 7 1; disk := locked_disk |}).
Proof.
  apply (unwritable_record_exits "records" respond_ok "20240101_000000"
           "2024-01-01T00:00:00Z" notes_request {| num := 7; disk := locked_disk |}
           "/"%char "notes"
           (set_body (first_record_part notes_request) "hello world" "") locked_disk).
  - reflexivity.
  - vm_compute. reflexivity.
  - cbn [denied locked_disk]. apply elem_of_singleton. vm_compute. reflexivity.
Defined.


(* ===================================================================== *)
(** ** More on replay *)
(* ===================================================================== *)

Section replay_more.
Context `{Unicode, Mime, Json, MultipartWriter}.
Implicit Types (req : RequestResponse) (header : WireHeader) (s : fs).

Lemma default_content_type_other header value k :
  k ≠ "Content-Type" → default_content_type header value !! k = header !! k.
Proof.
  intros Hk. unfold default_content_type, wire_Set.
  case_decide; [|done]. by rewrite lookup_insert_ne.
Qed.

Lemma default_content_type_kept header value :
  wire_Get header "Content-Type" ≠ "" → default_content_type header value = header.
Proof. intros Hct. unfold default_content_type. by rewrite decide_False. Qed.

(** The only key of the header [parseRecordBody] may change is
    [Content-Type], and a content type the header has is never changed. *)
Theorem parseRecordBody_header req header baseDir s :
  (∀ k, k ≠ "Content-Type" →
     (parseRecordBody req header baseDir s).2 !! k = header !! k)
  ∧ (wire_Get header "Content-Type" ≠ "" →
     (parseRecordBody req header baseDir s).2 = header).
Proof.
  unfold parseRecordBody. split.
  - intros k Hk.
    destruct (negb (bool_decide (BodyFile req = ""))); cbn [snd];
      [by apply default_content_type_other|].
    destruct (BodyJson req); cbn [snd]; [by apply default_content_type_other|].
    destruct (BodyMultiPart req); cbn [snd]; [|by apply default_content_type_other].
    destruct (negb (bool_decide (wire_Get header "Content-Type" = ""))); [done|].
    unfold wire_Set. by rewrite lookup_insert_ne.
  - intros Hct.
    destruct (negb (bool_decide (BodyFile req = ""))); cbn [snd];
      [by apply default_content_type_kept|].
    destruct (BodyJson req); cbn [snd]; [by apply default_content_type_kept|].
    destruct (BodyMultiPart req); cbn [snd]; [|by apply default_content_type_kept].
    by rewrite (bool_decide_eq_false_2 _ Hct).
Qed.

(** What is captured inline or as JSON is replayed from the record alone.
    A short printable body comes back as the same bytes. A valid JSON body
    of at most 1 MiB is stored as it came and replayed compacted. *)
Theorem inline_and_json_bodies_replay (r : HttpRequest) (body : reader)
    (filename : string) (s : fs) (header : WireHeader) (baseDir : string) (s2 : fs) :
  isContentMultiPart (wire_Get (req_Header r) "Content-Type") = false →
  rd_end body = EOF →
  (isContentJson (wire_Get (req_Header r) "Content-Type") = false →
   Z.of_nat (length (rd_data body)) < peek_window →
   forallb printable (runes (rd_data body)) = true →
   ∃ request',
     capture_body r body filename (first_record_part r) s = (Ok request', s)
     ∧ (parseRecordBody request' header baseDir s2).1
       = Ok (RcString (string_of_list_byte (rd_data body)))
     ∧ list_byte_of_string (string_of_list_byte (rd_data body)) = rd_data body)
  ∧ (isContentJson (wire_Get (req_Header r) "Content-Type") = true →
     Z.of_nat (length (rd_data body)) ≤ json_limit →
     json_Valid (rd_data body) = true →
     ∃ request',
       capture_body r body filename (first_record_part r) s = (Ok request', s)
       ∧ BodyJson request' = Some (rd_data body)
       ∧ (parseRecordBody request' header baseDir s2).1
         = match json_Compact (rd_data body) with
           | Some buffer => Ok (RcBuffer buffer)
           | None => Err (ErrOther "failed to parse json")
           end).
Proof.
  intros Hmp Hend. split.
  - intros Hjson Hlen Hpr. eexists. split.
    + by apply capture_body_inline.
    + split; [|apply list_byte_of_string_of_list_byte].
      by rewrite parseRecordBody_text.
  - intros Hjson Hlen Hvalid. unfold capture_body. rewrite Hmp, Hjson.
    eexists. split.
    + rewrite (bind_Ok _ _ s (rd_data body) s); [done|].
      apply or_Fatalf_Ok. by rewrite readJson_whole.
    + split; [done|].
      by rewrite (parseRecordBody_json _ _ _ _ (rd_data body)).
Qed.

Lemma recompose_inline_parts canon_ok baseDir boundary first (parts : list Part) s :
  canon_ok = (λ p : Part, ∀ k v, part_Header p !! k = Some v →
                v ≠ [] ∧ textproto_CanonicalMIMEHeaderKey k = k) →
  Forall canon_ok parts →
  recompose_parts baseDir boundary first (inline_part <$> parts) s
  = part_stream boundary first parts.
Proof.
  intros -> Hparts. revert first.
  induction Hparts as [|p parts Hp _ IH]; intros first; [done|].
  rewrite fmap_cons. cbn [recompose_parts part_stream inline_part ContentFile ContentJson
                            Content mp_Header].
  rewrite bool_decide_eq_true_2 by done. cbn [negb].
  rewrite ToMIMEHeader_FromMIMEHeader by done.
  by rewrite list_byte_of_string_of_list_byte, IH.
Qed.

(** A multipart body with at least one part, whose parts are short and
    printable, is decomposed and recomposed without loss: the stream
    replayed from the record the handler builds has, in the order they
    came, each part with its header and its bytes, between boundary lines
    of a boundary that may be another one, and ends with the closing
    line. *)
Theorem inline_parts_replay_in_order (r : HttpRequest) (body : reader)
    (mr : MultipartReader) (filename : string) (s : fs)
    (header : WireHeader) (baseDir : string) (s2 : fs) :
  isContentMultiPart (wire_Get (req_Header r) "Content-Type") = true →
  req_Body r = Some body →
  req_MultipartReader r = Ok mr →
  mr_end mr = EOF →
  mr_parts mr ≠ [] →
  Forall (λ p, isContentJson (wire_Get (part_Header p) "Content-Type") = false
               ∧ rd_end (part_body p) = EOF
               ∧ Z.of_nat (length (rd_data (part_body p))) < peek_window
               ∧ forallb printable (runes (rd_data (part_body p))) = true)
    (mr_parts mr) →
  Forall (λ p, ∀ k v, part_Header p !! k = Some v →
                 v ≠ [] ∧ textproto_CanonicalMIMEHeaderKey k = k) (mr_parts mr) →
  ∃ request' boundary,
    capture_body r body filename (first_record_part r) s = (Ok request', s)
    ∧ length <$> BodyMultiPart request' = Some (length (mr_parts mr))
    ∧ (parseRecordBody request' header baseDir s2).1
      = Ok (RcPipe (part_stream boundary true (mr_parts mr)
                      ++ multipart_Close boundary)%list).
Proof.
  intros Hct Hbody Hmr Hend _ Hinline Hheaders.
  eexists _, _. split; [|split].
  - unfold capture_body. rewrite Hct.
    rewrite (bind_Ok _ _ s (inline_part <$> mr_parts mr) s); [done|].
    apply or_Fatalf_Ok. unfold readMultiPart. rewrite Hbody, Hmr, Hend.
    by rewrite readMultiPart_loop_inline.
  - cbn [BodyMultiPart fmap option_fmap option_map]. by rewrite length_fmap.
  - unfold parseRecordBody.
    cbn [BodyFile BodyJson BodyMultiPart first_record_part].
    rewrite bool_decide_eq_true_2 by done. cbn [negb fst].
    by rewrite (recompose_inline_parts _ _ _ _ _ _ eq_refl Hheaders).
Qed.

End replay_more.

Section flags_and_hosts.
Implicit Types (c : server_flags) (addr host port : string).

(** The flags the server starts with. The listen address is never empty
    and a given one is kept; a TLS server has a certificate and a key; the
    command fails exactly when [https] is set and one of the two files is
    given without the other; a certificate alone, without [https],
    starts a server without TLS. *)
Theorem serverCmd_flags_invariant c :
  (∀ tls c', serverCmd_flags c = Ok (tls, c') →
     flag_listen c' ≠ ""
     ∧ (flag_listen c ≠ "" → flag_listen c' = flag_listen c)
     ∧ (tls = true → flag_cert c' ≠ "" ∧ flag_key c' ≠ "")
     ∧ (tls = false ↔ flag_https c = false ∧ (flag_cert c = "" ∨ flag_key c = "")))
  ∧ ((∃ e, serverCmd_flags c = Err e)
     ↔ flag_https c = true
       ∧ ((flag_cert c = "" ∧ flag_key c ≠ "") ∨ (flag_cert c ≠ "" ∧ flag_key c = ""))).
Proof.
  destruct c as [listen https cert key]. unfold serverCmd_flags.
  cbn [flag_listen flag_https flag_cert flag_key].
  destruct https;
    destruct (decide (listen = "")) as [Hl|Hl];
    destruct (decide (cert = "")) as [Hc|Hc];
    destruct (decide (key = "")) as [Hk|Hk];
    rewrite ?(bool_decide_eq_true_2 _ Hl), ?(bool_decide_eq_false_2 _ Hl),
      ?(bool_decide_eq_true_2 _ Hc), ?(bool_decide_eq_false_2 _ Hc),
      ?(bool_decide_eq_true_2 _ Hk), ?(bool_decide_eq_false_2 _ Hk);
    cbn [orb andb negb flag_listen flag_https flag_cert flag_key];
    rewrite ?(bool_decide_eq_true_2 _ Hl), ?(bool_decide_eq_false_2 _ Hl),
      ?(bool_decide_eq_true_2 _ Hc), ?(bool_decide_eq_false_2 _ Hc),
      ?(bool_decide_eq_true_2 _ Hk), ?(bool_decide_eq_false_2 _ Hk);
    cbn [orb andb negb flag_listen flag_https flag_cert flag_key];
    try change (bool_decide ("cert.pem" = "")) with false;
    try change (bool_decide ("key.pem" = "")) with false;
    cbv iota;
    (split;
     [intros tls c' Heq; simplify_eq; cbn [flag_listen flag_cert flag_key];
      intuition (try discriminate; try congruence; eauto)
     |split;
      [intros [e He]; simplify_eq; intuition (try discriminate; try congruence; eauto)
      |intros [Hh Hcase]; simplify_eq;
       intuition (try discriminate; try congruence; eauto)]]).
Qed.

Lemma last_colon_no_colon addr i found :
  ":"%char ∉ list_ascii_of_string addr → last_colon addr i found = found.
Proof.
  revert i found. induction addr as [|ch addr IH]; intros i found Hno; [done|].
  cbn [last_colon list_ascii_of_string] in *.
  apply not_elem_of_cons in Hno as [Hne Hno].
  rewrite decide_False by done. by apply IH.
Qed.

Lemma last_colon_app host rest i found :
  0 ≤ i →
  last_colon (host +:+ String ":" rest) i found
  = last_colon rest (i + Z.of_nat (String.length host) + 1) (i + Z.of_nat (String.length host)).
Proof.
  revert i found. induction host as [|ch host IH]; intros i found Hi.
  - change ("" +:+ ?x) with x. cbn [last_colon String.length].
    rewrite decide_True by done. f_equal; lia.
  - rewrite string_app_cons. cbn [last_colon String.length].
    rewrite IH by lia. f_equal; lia.
Qed.

(** The host name for the TLS handshake: of an address [host:port] it is
    the host, whatever the host is, and of an address without colon it is
    the whole address. *)
Theorem dial_hostname_drops_the_port host port :
  ":"%char ∉ list_ascii_of_string port →
  dial_hostname (host +:+ String ":" port) = host
  ∧ dial_hostname port = port.
Proof.
  intros Hport. unfold dial_hostname. split.
  - rewrite last_colon_app by done. rewrite last_colon_no_colon by done.
    assert ((0 + Z.of_nat (String.length host) =? -1) = false) as ->
      by (apply Z.eqb_neq; lia).
    rewrite Z.add_0_l, Nat2Z.id. apply substring_app.
  - rewrite last_colon_no_colon by done. change (-1 =? -1) with true. cbv iota.
    rewrite Nat2Z.id. rewrite <- (string_app_nil port) at 2. apply substring_app.
Qed.

End flags_and_hosts.

Lemma inline_and_json_bodies_replay_witness :
  ∃ request',
    capture_body notes_request (stream (list_byte_of_string "hello world"))
      "0008_x.json" (first_record_part notes_request) roomy_disk
    = (Ok request', roomy_disk)
    ∧ (parseRecordBody request' ∅ "." roomy_disk).1
      = Ok (RcString (string_of_list_byte
                        (rd_data (stream (list_byte_of_string "hello world")))))
    ∧ list_byte_of_string
        (string_of_list_byte (rd_data (stream (list_byte_of_string "hello world"))))
      = rd_data (stream (list_byte_of_string "hello world")).
Proof.
  apply (inline_and_json_bodies_replay notes_request
           (stream (list_byte_of_string "hello world")) "0008_x.json" roomy_disk
           ∅ "." roomy_disk eq_refl eq_refl).
  - reflexivity.
  - vm_compute. reflexivity.
  - vm_compute. reflexivity.
Defined.

Lemma inline_parts_replay_in_order_witness :
  ∃ request' boundary,
    capture_body (form_post "/upload" [form_field "a" "one"; form_field "b" "two"])
      (stream []) "0008_x.json"
      (first_record_part (form_post "/upload" [form_field "a" "one"; form_field "b" "two"]))
      roomy_disk
    = (Ok request', roomy_disk)
    ∧ length <$> BodyMultiPart request' = Some 2%nat
    ∧ (parseRecordBody request' ∅ "." roomy_disk).1
      = Ok (RcPipe (part_stream boundary true
                      [form_field "a" "one"; form_field "b" "two"]
                      ++ multipart_Close boundary)%list).
Proof.
  apply (inline_parts_replay_in_order
           (form_post "/upload" [form_field "a" "one"; form_field "b" "two"])
           (stream [])
           {| mr_parts := [form_field "a" "one"; form_field "b" "two"]; mr_end := EOF |}
           "0008_x.json" roomy_disk ∅ "." roomy_disk eq_refl eq_refl eq_refl eq_refl).
  - discriminate.
  - repeat constructor; vm_compute; congruence.
  - cbn [mr_parts]. apply Forall_cons. split; [|apply Forall_cons; split; [|done]].
    + intros k v Hk. cbn [form_field part_Header] in Hk.
      apply lookup_singleton_Some in Hk as [<- <-].
      split; [discriminate|vm_compute; reflexivity].
    + intros k v Hk. cbn [form_field part_Header] in Hk.
      apply lookup_singleton_Some in Hk as [<- <-].
      split; [discriminate|vm_compute; reflexivity].
Defined.

Lemma serverCmd_flags_invariant_witness :
  ∃ e, serverCmd_flags {| flag_listen := ""; flag_https := true;
                          flag_cert := "server.pem"; flag_key := "" |} = Err e.
Proof.
  apply (proj2 (serverCmd_flags_invariant _)).
  split; [reflexivity|]. right. split; [discriminate|reflexivity].
Defined.

Lemma dial_hostname_drops_the_port_witness :
  dial_hostname ("example.org" +:+ String ":" "443") = "example.org".
Proof.
  apply (dial_hostname_drops_the_port "example.org" "443").
  vm_compute. intros Hin. repeat (apply elem_of_cons in Hin as [Hin|Hin]; [discriminate|]).
  by apply elem_of_nil in Hin.
Defined.

(* ===================================================================== *)
(** ** Streams that are cut short *)
(* ===================================================================== *)

Section cut_short.
Context `{Unicode, Mime, Json}.


End cut_short.


Lemma fold_into_existing_witness :
  default ∅ (FromHttpHeader (Some {[ "Host" := VString "old" ]})
               {[ "Accept" := ["a"; "b"] ]}) !! "Host"
  = default ∅ (Some ({[ "Host" := VString "old" ]} : gmap string hval)) !! "Host".
Proof.
  apply (fold_into_existing (Some {[ "Host" := VString "old" ]}) {[ "Accept" := ["a"; "b"] ]}).
  left. apply lookup_singleton_ne. discriminate.
Defined.

Lemma parseRecordBody_header_witness :
  (parseRecordBody blank_request {[ "Content-Type" := ["text/csv"] ]} "." roomy_disk).2
  = {[ "Content-Type" := ["text/csv"] ]}.
Proof.
  apply (parseRecordBody_header blank_request {[ "Content-Type" := ["text/csv"] ]}
           "." roomy_disk).
  vm_compute. discriminate.
Defined.
